(** * The Northwind data-access layer

  A shallow embedding of [src/main.py]: the schema-and-seed loader
  ([NorthwindDatabase]), the generic query functions ([DatabasePlugin])
  and the two analytics queries ([AnalyticsPlugin]).

  The Python code talks to SQLite through the [sqlite3] module and to
  pandas through [read_sql_query] / [to_json].  Both are libraries, not
  code of the repository, so they are modelled here as far as the code
  uses them:

  - the database file is a [Store]: the tables in [sqlite_master] order,
    each with its declared columns, declared foreign keys and rows;
  - a [connection] carries the committed file, the working copy of the
    open transaction and the transaction flag, the way the [sqlite3]
    module drives SQLite (implicit BEGIN before INSERT / UPDATE / DELETE /
    REPLACE only, nothing committed without [commit]);
  - the SQL statements written in the source are translated by hand to
    functions on stores; SQL text that arrives at run time is read by a
    small front end that knows a few statement forms and hands every
    other text to a [backend], which is a parameter;
  - REAL values are exact rationals;
  - a Python call either returns or raises ([Py.result]). *)

From Stdlib Require Import ZArith QArith List String Ascii Bool Lia Permutation.
From Stdlib Require DecimalString.
Import ListNotations.
Local Open Scope string_scope.
Local Open Scope list_scope.

Infix "+++" := String.append (at level 60, right associativity).

(** ** Python outcomes *)

Module Py.

(** The exception classes that reach the functions of the model.  Every
    one of them derives from [Exception], so [except Exception] catches
    each. *)
Inductive exn_class : Type :=
| OperationalError   (* sqlite3 *)
| IntegrityError     (* sqlite3 *)
| ProgrammingError   (* sqlite3 *)
| DatabaseError      (* pandas.errors *)
| TypeError
| ValueError.

Record exn : Type := Exn { exn_cls : exn_class; exn_msg : string }.

Inductive result (A : Type) : Type :=
| Returned (a : A)
| Raised (e : exn).
Arguments Returned {A} a.
Arguments Raised {A} e.

(** [str(e)] *)
Definition str (e : exn) : string := exn_msg e.

Definition bind {A B : Type} (r : result A) (k : A -> result B) : result B :=
  match r with
  | Returned a => k a
  | Raised e => Raised e
  end.


End Py.

Notation "x <- r ;; k" := (Py.bind r (fun x => k))
(at level 61, r at next level, right associativity).

(** ** Text helpers *)

Module Text.

Definition dquote : string := String (ascii_of_nat 34) EmptyString.
Definition newline : string := String (ascii_of_nat 10) EmptyString.

(** ASCII case folding, as SQLite compares names. *)
Definition lower_ascii (c : ascii) : ascii :=
  let n := nat_of_ascii c in
  if andb (Nat.leb 65 n) (Nat.leb n 90) then ascii_of_nat (n + 32) else c.

Fixpoint lower (s : string) : string :=
  match s with
  | EmptyString => EmptyString
  | String c s' => String (lower_ascii c) (lower s')
  end.

Definition ieqb (a b : string) : bool := String.eqb (lower a) (lower b).

Definition starts_with (p s : string) : bool := String.prefix p s.

(** [str(n)] of a Python int, also the decimal rendering of an integer in
    JSON. *)
Definition of_Z (z : Z) : string :=
  DecimalString.NilZero.string_of_int (Z.to_int z).

Definition of_nat (n : nat) : string := of_Z (Z.of_nat n).

Fixpoint concat_all (l : list string) : string :=
  match l with
  | [] => EmptyString
  | s :: l' => s +++ concat_all l'
  end.

(** [sep.join(l)] *)
Fixpoint join (sep : string) (l : list string) : string :=
  match l with
  | [] => EmptyString
  | [s] => s
  | s :: l' => s +++ sep +++ join sep l'
  end.

End Text.

(** ** The stored data *)

Module Sql.

(** The storage classes the code uses.  A Python [int] is bound as an
    INTEGER, a [float] as a REAL, a [str] as TEXT, [None] as NULL. *)
Inductive value : Type :=
| VNull
| VInt (z : Z)
| VReal (q : Q)
| VText (s : string).

(** Reals are kept in lowest terms, so that equal reals are equal terms. *)
Definition REAL (q : Q) : value := VReal (Qred q).

Definition is_null (v : value) : bool :=
  match v with VNull => true | _ => false end.

(** SQL equality, as the uniqueness checks and the join conditions use
    it: NULL equals nothing, numbers compare by value, text bytewise. *)
Definition value_eqb (a b : value) : bool :=
  match a, b with
  | VInt x, VInt y => Z.eqb x y
  | VInt x, VReal y => Qeq_bool (inject_Z x) y
  | VReal x, VInt y => Qeq_bool x (inject_Z y)
  | VReal x, VReal y => Qeq_bool x y
  | VText x, VText y => String.eqb x y
  | _, _ => false
  end.

Definition row : Type := list value.

(** A column as [PRAGMA table_info] reports it.  [col_notnull] is set by
    a NOT NULL clause only; [col_pk] is the 1-based position of the column
    in the primary key, 0 outside it. *)
Record column : Type := Column {
  col_name : string;
  col_type : string;
  col_notnull : bool;
  col_default : option string;
  col_pk : nat
}.

(** [FOREIGN KEY (fk_column) REFERENCES fk_table(fk_ref)] *)
Record foreign_key : Type := ForeignKey {
  fk_column : string;
  fk_table : string;
  fk_ref : string
}.

Record table : Type := Table {
  tbl_columns : list column;
  tbl_fks : list foreign_key;
  tbl_rows : list row
}.

(** The database file: its tables in the order of [sqlite_master]. *)
Definition Store : Type := list (string * table).

Fixpoint lookup_table (name : string) (s : Store) : option table :=
  match s with
  | [] => None
  | (n, t) :: s' => if Text.ieqb n name then Some t else lookup_table name s'
  end.

Fixpoint update_table (name : string) (f : table -> table) (s : Store) : Store :=
  match s with
  | [] => []
  | (n, t) :: s' =>
      if Text.ieqb n name then (n, f t) :: s'
      else (n, t) :: update_table name f s'
  end.

Definition add_row (r : row) (t : table) : table :=
  Table (tbl_columns t) (tbl_fks t) (tbl_rows t ++ [r])%list.

Definition row_count (name : string) (s : Store) : option nat :=
  option_map (fun t => List.length (tbl_rows t)) (lookup_table name s).

Fixpoint column_index (name : string) (cols : list column) : option nat :=
  match cols with
  | [] => None
  | c :: cols' =>
      if Text.ieqb (col_name c) name then Some O
      else option_map S (column_index name cols')
  end.

Definition cell (i : nat) (r : row) : value := nth i r VNull.

(** The positions of the primary-key columns. *)
Fixpoint pk_positions_from (i : nat) (cols : list column) : list nat :=
  match cols with
  | [] => []
  | c :: cols' =>
      if Nat.ltb 0 (col_pk c) then i :: pk_positions_from (S i) cols'
      else pk_positions_from (S i) cols'
  end.

Definition pk_positions (cols : list column) : list nat :=
  pk_positions_from 0 cols.

Fixpoint notnull_violation (cols : list column) (r : row) : bool :=
  match cols, r with
  | c :: cols', v :: r' =>
      (col_notnull c && is_null v) || notnull_violation cols' r'
  | _, _ => false
  end.

Definition same_key (pks : list nat) (r1 r2 : row) : bool :=
  forallb (fun i => value_eqb (cell i r1) (cell i r2)) pks.

Definition key_conflict (cols : list column) (rows : list row) (r : row) : bool :=
  match pk_positions cols with
  | [] => false
  | pks => existsb (same_key pks r) rows
  end.

(** [CREATE TABLE IF NOT EXISTS name (...)]: nothing happens when the
    name is taken. *)
Definition create_table_if_not_exists
    (name : string) (cols : list column) (fks : list foreign_key)
    (s : Store) : Store :=
  match lookup_table name s with
  | Some _ => s
  | None => (s ++ [(name, Table cols fks [])])%list
  end.

(** [INSERT OR IGNORE INTO name VALUES (?, ..., ?)] with one row of
    parameters.  A missing table or a wrong number of values is an error;
    a NOT NULL or primary-key conflict skips the row; otherwise the row is
    appended.  Foreign keys are not checked: the code never turns
    [PRAGMA foreign_keys] on.  Column affinity leaves the values the
    loader binds as they are, since each already has the storage class of
    its column. *)
Definition insert_or_ignore (name : string) (r : row) (s : Store)
  : Py.result Store :=
  match lookup_table name s with
  | None =>
      Py.Raised (Py.Exn Py.OperationalError ("no such table: " +++ name))
  | Some t =>
      if Nat.eqb (List.length r) (List.length (tbl_columns t)) then
        if notnull_violation (tbl_columns t) r
           || key_conflict (tbl_columns t) (tbl_rows t) r
        then Py.Returned s
        else Py.Returned (update_table name (add_row r) s)
      else
        Py.Raised (Py.Exn Py.OperationalError
          ("table " +++ name +++ " has "
           +++ Text.of_nat (List.length (tbl_columns t)) +++ " columns but "
           +++ Text.of_nat (List.length r) +++ " values were supplied"))
  end.

(** What a statement hands back to the cursor: the column names of
    [cursor.description] and the rows. *)
Record result_set : Type := ResultSet {
  rs_columns : list string;
  rs_rows : list row
}.

End Sql.

(** ** The [sqlite3] module: connections and transactions *)

Module Sqlite3.
Import Sql.

(** One prepared statement run against the working copy: it raises, or
    it leaves a new working copy and, when it produces rows, a result
    set ([None] stands for [cursor.description is None]). *)
Definition statement : Type := Store -> Py.result (Store * option result_set).

Record connection : Type := Connection {
  committed : Store;        (* what the file holds *)
  working : Store;          (* what this connection sees *)
  in_transaction : bool
}.

(** [sqlite3.connect(path)] *)
Definition connect (db : Store) : connection := Connection db db false.

Definition begin_if (dml : bool) (c : connection) : connection :=
  if dml && negb (in_transaction c)
  then Connection (committed c) (working c) true
  else c.

(** [cursor.execute(sql)].  The module opens a transaction before a DML
    statement and before nothing else; outside a transaction SQLite
    commits each statement on its own.  A statement that raises changes
    nothing. *)
Definition execute (dml : bool) (st : statement) (c : connection)
  : connection * Py.result (option result_set) :=
  let c := begin_if dml c in
  match st (working c) with
  | Py.Raised e => (c, Py.Raised e)
  | Py.Returned (w, r) =>
      (Connection (if in_transaction c then committed c else w) w
                  (in_transaction c),
       Py.Returned r)
  end.

(** The rows of [cursor.executemany(sql, rows)] after the transaction
    is open: one run of the statement per row, stopping at the first
    error. *)
Fixpoint run_many (st : row -> Store -> Py.result Store)
    (rows : list row) (w : Store) : Store * Py.result unit :=
  match rows with
  | [] => (w, Py.Returned tt)
  | r :: rows' =>
      match st r w with
      | Py.Raised e => (w, Py.Raised e)
      | Py.Returned w' => run_many st rows' w'
      end
  end.

(** [cursor.executemany(sql, rows)] for a DML statement. *)
Definition executemany (st : row -> Store -> Py.result Store)
    (rows : list row) (c : connection) : connection * Py.result unit :=
  let c := begin_if true c in
  let (w, r) := run_many st rows (working c) in
  (Connection (committed c) w true, r).

(** [conn.commit()] *)
Definition commit (c : connection) : connection :=
  Connection (working c) (working c) false.

(** [conn.rollback()] *)
Definition rollback (c : connection) : connection :=
  Connection (committed c) (committed c) false.

(** [conn.close()], and also what is left of a connection that is
    dropped without being closed: the open transaction is rolled back
    and the file keeps what was committed. *)
Definition close (c : connection) : Store := committed c.

End Sqlite3.

(** ** [class NorthwindDatabase] *)

Module NorthwindDatabase.
Import Sql Sqlite3.

Definition plain (name type : string) : column := Column name type false None 0.
Definition not_null (name type : string) : column := Column name type true None 0.
Definition primary_key (name type : string) (pos : nat) : column :=
  Column name type false None pos.

(** The [tables] dictionary of [setup_database], in insertion order: the
    name, and the columns and foreign keys of its CREATE TABLE text. *)
Definition tables : list (string * (list column * list foreign_key)) :=
  [ ("Categories",
     ([ primary_key "CategoryID" "INTEGER" 1;
        not_null "CategoryName" "TEXT";
        plain "Description" "TEXT" ],
      []));
    ("Suppliers",
     ([ primary_key "SupplierID" "INTEGER" 1;
        not_null "CompanyName" "TEXT";
        plain "ContactName" "TEXT";
        plain "Country" "TEXT" ],
      []));
    ("Products",
     ([ primary_key "ProductID" "INTEGER" 1;
        not_null "ProductName" "TEXT";
        plain "CategoryID" "INTEGER";
        plain "SupplierID" "INTEGER";
        plain "UnitPrice" "REAL";
        plain "UnitsInStock" "INTEGER" ],
      [ ForeignKey "CategoryID" "Categories" "CategoryID";
        ForeignKey "SupplierID" "Suppliers" "SupplierID" ]));
    ("Customers",
     ([ primary_key "CustomerID" "TEXT" 1;
        not_null "CompanyName" "TEXT";
        plain "ContactName" "TEXT";
        plain "Country" "TEXT";
        plain "City" "TEXT" ],
      []));
    ("Employees",
     ([ primary_key "EmployeeID" "INTEGER" 1;
        not_null "FirstName" "TEXT";
        not_null "LastName" "TEXT";
        plain "Title" "TEXT";
        plain "HireDate" "DATE";
        plain "Country" "TEXT" ],
      []));
    ("Shippers",
     ([ primary_key "ShipperID" "INTEGER" 1;
        not_null "CompanyName" "TEXT";
        plain "Phone" "TEXT" ],
      []));
    ("Orders",
     ([ primary_key "OrderID" "INTEGER" 1;
        plain "CustomerID" "TEXT";
        plain "EmployeeID" "INTEGER";
        plain "OrderDate" "DATE";
        plain "ShipperID" "INTEGER";
        plain "ShipCountry" "TEXT" ],
      [ ForeignKey "CustomerID" "Customers" "CustomerID";
        ForeignKey "EmployeeID" "Employees" "EmployeeID";
        ForeignKey "ShipperID" "Shippers" "ShipperID" ]));
    ("OrderDetails",
     ([ primary_key "OrderID" "INTEGER" 1;
        primary_key "ProductID" "INTEGER" 2;
        plain "UnitPrice" "REAL";
        plain "Quantity" "INTEGER";
        plain "Discount" "REAL" ],
      [ ForeignKey "OrderID" "Orders" "OrderID";
        ForeignKey "ProductID" "Products" "ProductID" ]));
    ("Region",
     ([ primary_key "RegionID" "INTEGER" 1;
        not_null "RegionDescription" "TEXT" ],
      []));
    ("Territories",
     ([ primary_key "TerritoryID" "TEXT" 1;
        not_null "TerritoryDescription" "TEXT";
        plain "RegionID" "INTEGER" ],
      [ ForeignKey "RegionID" "Region" "RegionID" ]));
    ("EmployeeTerritories",
     ([ primary_key "EmployeeID" "INTEGER" 1;
        primary_key "TerritoryID" "TEXT" 2 ],
      [ ForeignKey "EmployeeID" "Employees" "EmployeeID";
        ForeignKey "TerritoryID" "Territories" "TerritoryID" ])) ].

Definition table_names : list string := map fst tables.

(** The sample rows of [insert_sample_data], as the source lists them. *)
Definition categories : list row :=
  [ [VInt 1; VText "Beverages"; VText "Soft drinks, coffees, teas, beers, and ales"];
    [VInt 2; VText "Condiments"; VText "Sweet and savory sauces, relishes, spreads, and seasonings"];
    [VInt 3; VText "Dairy Products"; VText "Cheeses"];
    [VInt 4; VText "Grains/Cereals"; VText "Breads, crackers, pasta, and cereal"];
    [VInt 5; VText "Seafood"; VText "Seaweed and fish"] ].

Definition suppliers : list row :=
  [ [VInt 1; VText "Exotic Liquids"; VText "Charlotte Cooper"; VText "UK"];
    [VInt 2; VText "New Orleans Cajun Delights"; VText "Shelley Burke"; VText "USA"];
    [VInt 3; VText "Tokyo Traders"; VText "Yoshi Nagase"; VText "Japan"];
    [VInt 4; VText "Nord-Ost-Fisch"; VText "Sven Petersen"; VText "Germany"];
    [VInt 5; VText "Formaggi Fortini"; VText "Elio Rossi"; VText "Italy"] ].

Definition products : list row :=
  [ [VInt 1; VText "Chai"; VInt 1; VInt 1; REAL 18.0; VInt 39];
    [VInt 2; VText "Chang"; VInt 1; VInt 1; REAL 19.0; VInt 17];
    [VInt 3; VText "Aniseed Syrup"; VInt 2; VInt 1; REAL 10.0; VInt 13];
    [VInt 4; VText "Chef Anton Cajun Seasoning"; VInt 2; VInt 2; REAL 22.0; VInt 53];
    [VInt 5; VText "Gumbo Mix"; VInt 2; VInt 2; REAL 21.35; VInt 0];
    [VInt 6; VText "Mozzarella di Giovanni"; VInt 3; VInt 5; REAL 34.8; VInt 14];
    [VInt 7; VText "Gorgonzola Telino"; VInt 3; VInt 5; REAL 12.5; VInt 0];
    [VInt 8; VText "Mascarpone Fabioli"; VInt 3; VInt 5; REAL 32.0; VInt 9];
    [VInt 9; VText "R√∏gede sild"; VInt 5; VInt 4; REAL 9.65; VInt 5];
    [VInt 10; VText "Spegesild"; VInt 5; VInt 4; REAL 12.0; VInt 95] ].

Definition customers : list row :=
  [ [VText "ALFKI"; VText "Alfreds Futterkiste"; VText "Maria Anders"; VText "Germany"; VText "Berlin"];
    [VText "ANATR"; VText "Ana Trujillo Emparedados"; VText "Ana Trujillo"; VText "Mexico"; VText "M√©xico D.F."];
    [VText "BERGS"; VText "Berglunds snabbk√∂p"; VText "Christina Berglund"; VText "Sweden"; VText "Lule√•"];
    [VText "BLAUS"; VText "Blauer See Delikatessen"; VText "Hanna Moos"; VText "Germany"; VText "Mannheim"];
    [VText "BOLID"; VText "B√≥lido Comidas"; VText "Mart√≠n Sommer"; VText "Spain"; VText "Madrid"] ].

Definition employees : list row :=
  [ [VInt 1; VText "Nancy"; VText "Davolio"; VText "Sales Representative"; VText "1992-05-01"; VText "USA"];
    [VInt 2; VText "Andrew"; VText "Fuller"; VText "Vice President, Sales"; VText "1992-08-14"; VText "USA"];
    [VInt 3; VText "Janet"; VText "Leverling"; VText "Sales Representative"; VText "1992-04-01"; VText "USA"];
    [VInt 4; VText "Margaret"; VText "Peacock"; VText "Sales Representative"; VText "1993-05-03"; VText "USA"];
    [VInt 5; VText "Steven"; VText "Buchanan"; VText "Sales Manager"; VText "1993-10-17"; VText "UK"] ].

Definition shippers : list row :=
  [ [VInt 1; VText "Speedy Express"; VText "(503) 555-9831"];
    [VInt 2; VText "United Package"; VText "(503) 555-3199"];
    [VInt 3; VText "Federal Shipping"; VText "(503) 555-9931"] ].

Definition orders : list row :=
  [ [VInt 10248; VText "ALFKI"; VInt 5; VText "1996-07-04"; VInt 3; VText "Germany"];
    [VInt 10249; VText "BERGS"; VInt 6; VText "1996-07-05"; VInt 1; VText "Sweden"];
    [VInt 10250; VText "BLAUS"; VInt 4; VText "1996-07-08"; VInt 2; VText "Germany"] ].

Definition order_details : list row :=
  [ [VInt 10248; VInt 1; REAL 18.0; VInt 12; REAL 0.0];
    [VInt 10248; VInt 2; REAL 19.0; VInt 10; REAL 0.0];
    [VInt 10249; VInt 3; REAL 10.0; VInt 5; REAL 0.0];
    [VInt 10250; VInt 4; REAL 22.0; VInt 15; REAL 0.15] ].

(** The [executemany] calls of [insert_sample_data], in order: the table
    of each INSERT OR IGNORE and its rows. *)
Definition sample_data : list (string * list row) :=
  [ ("Categories", categories);
    ("Suppliers", suppliers);
    ("Products", products);
    ("Customers", customers);
    ("Employees", employees);
    ("Shippers", shippers);
    ("Orders", orders);
    ("OrderDetails", order_details) ].

(** [insert_sample_data(cursor)]: each [executemany] in turn; an error
    leaves the later ones undone. *)
Fixpoint insert_all (data : list (string * list row)) (c : connection)
  : connection * Py.result unit :=
  match data with
  | [] => (c, Py.Returned tt)
  | (name, rows) :: data' =>
      match executemany (insert_or_ignore name) rows c with
      | (c', Py.Returned _) => insert_all data' c'
      | (c', Py.Raised e) => (c', Py.Raised e)
      end
  end.

Definition insert_sample_data (c : connection) : connection * Py.result unit :=
  insert_all sample_data c.

(** One [cursor.execute(create_sql)]. *)
Definition create_statement (d : string * (list column * list foreign_key))
  : statement :=
  fun w =>
    Py.Returned
      (create_table_if_not_exists (fst d) (fst (snd d)) (snd (snd d)) w, None).

Definition create_tables (c : connection) : connection :=
  fold_left (fun c d => fst (execute false (create_statement d) c)) tables c.

(** [setup_database(self)]: the file after the call, and whether the
    call returned.  The commit is reached only when nothing raised. *)
Definition setup_database (db : Store) : Store * Py.result unit :=
  let conn := connect db in
  let conn := create_tables conn in
  match insert_sample_data conn with
  | (conn, Py.Returned _) => (close (commit conn), Py.Returned tt)
  | (conn, Py.Raised e) => (close conn, Py.Raised e)
  end.

(** A new, empty database file, and the file after the first start. *)
Definition empty_store : Store := [].
Definition seeded : Store := fst (setup_database empty_store).

End NorthwindDatabase.

(** ** SQL text that arrives at run time *)

Module SqlText.
Import Sql Sqlite3.

(** What SQLite does with text outside the forms read below, and which
    table names the engine defines by itself (sqlite_master, the pragma_
    tables, json_each, ...).  Both depend on the SQLite build and are
    left open. *)
Record backend : Type := Backend {
  builtin_table : string -> bool;
  run_other : string -> statement;
  table_info_other : string -> Store -> Py.result (list column)
}.

Definition is_blank (c : ascii) : bool :=
  let n := nat_of_ascii c in
  Nat.eqb n 32 || Nat.eqb n 9 || Nat.eqb n 10 || Nat.eqb n 13.

Definition is_letter (c : ascii) : bool :=
  let n := nat_of_ascii c in
  (Nat.leb 65 n && Nat.leb n 90) || (Nat.leb 97 n && Nat.leb n 122).

Definition is_digit (c : ascii) : bool :=
  let n := nat_of_ascii c in Nat.leb 48 n && Nat.leb n 57.

Definition is_underscore (c : ascii) : bool := Nat.eqb (nat_of_ascii c) 95.

Definition is_word_char (c : ascii) : bool :=
  is_letter c || is_digit c || is_underscore c.

Definition is_printable (c : ascii) : bool :=
  let n := nat_of_ascii c in is_blank c || (Nat.leb 33 n && Nat.leb n 126).

Fixpoint all_chars (p : ascii -> bool) (s : string) : bool :=
  match s with
  | EmptyString => true
  | String c s' => p c && all_chars p s'
  end.

(** A bare identifier: a letter or underscore, then letters, digits and
    underscores. *)
Definition is_identifier (s : string) : bool :=
  match s with
  | EmptyString => false
  | String c _ => (is_letter c || is_underscore c) && all_chars is_word_char s
  end.

(** The text cut at blanks; [cur] is the word being read. *)
Fixpoint split_blanks (s : string) (cur : string) : list string :=
  match s with
  | EmptyString =>
      match cur with EmptyString => [] | _ => [cur] end
  | String c s' =>
      if is_blank c then
        match cur with
        | EmptyString => split_blanks s' EmptyString
        | _ => cur :: split_blanks s' EmptyString
        end
      else split_blanks s' (cur +++ String c EmptyString)
  end.

Definition words (s : string) : list string := split_blanks s EmptyString.

Definition mem (w : string) (l : list string) : bool := existsb (String.eqb w) l.

(** The keywords of SQLite 3.40, in lower case. *)
Definition keywords : list string :=
  [ "abort"; "action"; "add"; "after"; "all"; "alter"; "always"; "analyze";
    "and"; "as"; "asc"; "attach"; "autoincrement"; "before"; "begin";
    "between"; "by"; "cascade"; "case"; "cast"; "check"; "collate";
    "column"; "commit"; "conflict"; "constraint"; "create"; "cross";
    "current"; "current_date"; "current_time"; "current_timestamp";
    "database"; "default"; "deferrable"; "deferred"; "delete"; "desc";
    "detach"; "distinct"; "do"; "drop"; "each"; "else"; "end"; "escape";
    "except"; "exclude"; "exclusive"; "exists"; "explain"; "fail";
    "filter"; "first"; "following"; "for"; "foreign"; "from"; "full";
    "generated"; "glob"; "group"; "groups"; "having"; "if"; "ignore";
    "immediate"; "in"; "index"; "indexed"; "initially"; "inner"; "insert";
    "instead"; "intersect"; "into"; "is"; "isnull"; "join"; "key"; "last";
    "left"; "like"; "limit"; "match"; "materialized"; "natural"; "no";
    "not"; "nothing"; "notnull"; "null"; "nulls"; "of"; "offset"; "on";
    "or"; "order"; "others"; "outer"; "over"; "partition"; "plan";
    "pragma"; "preceding"; "primary"; "query"; "raise"; "range";
    "recursive"; "references"; "regexp"; "reindex"; "release"; "rename";
    "replace"; "restrict"; "returning"; "right"; "rollback"; "row"; "rows";
    "savepoint"; "select"; "set"; "table"; "temp"; "temporary"; "then";
    "ties"; "to"; "transaction"; "trigger"; "unbounded"; "union";
    "unique"; "update"; "using"; "vacuum"; "values"; "view"; "virtual";
    "when"; "where"; "window"; "with"; "without" ].

(** The keywords the grammar refuses where a name is expected. *)
Definition reserved : list string :=
  [ "add"; "all"; "alter"; "and"; "as"; "autoincrement"; "between"; "case";
    "check"; "collate"; "commit"; "constraint"; "create"; "deferrable";
    "distinct"; "drop"; "else"; "escape"; "except"; "exists"; "foreign";
    "from"; "group"; "having"; "in"; "index"; "insert"; "intersect";
    "into"; "is"; "isnull"; "join"; "limit"; "not"; "nothing"; "notnull";
    "null"; "or"; "order"; "primary"; "references"; "returning"; "select";
    "set"; "table"; "then"; "to"; "transaction"; "union"; "unique";
    "update"; "using"; "values"; "when"; "where" ].

(** The keywords a statement can begin with. *)
Definition statement_starters : list string :=
  [ "alter"; "analyze"; "attach"; "begin"; "commit"; "create"; "delete";
    "detach"; "drop"; "end"; "explain"; "insert"; "pragma"; "reindex";
    "release"; "replace"; "rollback"; "savepoint"; "select"; "update";
    "vacuum"; "values"; "with" ].

Definition is_keyword (w : string) : bool := mem (Text.lower w) keywords.
Definition is_reserved (w : string) : bool := mem (Text.lower w) reserved.
Definition is_starter (w : string) : bool := mem (Text.lower w) statement_starters.

(** A word that is read as a table name. *)
Definition is_name (w : string) : bool :=
  is_identifier w && negb (is_keyword w).

Definition syntax_error (near : string) : Py.exn :=
  Py.Exn Py.OperationalError
    ("near " +++ Text.dquote +++ near +++ Text.dquote +++ ": syntax error").

Definition no_such_table (name : string) : Py.exn :=
  Py.Exn Py.OperationalError ("no such table: " +++ name).

(** How a table name in the statement [sql] is resolved: a table of the
    file comes first, then the tables the engine defines, and there is no
    such table otherwise. *)
Definition on_table (B : backend) (sql name : string)
    (k : table -> statement) : statement :=
  fun w =>
    match lookup_table name w with
    | Some t => k t w
    | None =>
        if builtin_table B name then run_other B sql w
        else Py.Raised (no_such_table name)
    end.

(** [SELECT COUNT( * ) FROM name], the count labelled with the text of
    the expression as it was written. *)
Definition select_count (label : string) (t : table) : statement :=
  fun w =>
    Py.Returned
      (w, Some (ResultSet [label]
                  [[VInt (Z.of_nat (List.length (tbl_rows t)))]])).

Fixpoint remove_table (name : string) (s : Store) : Store :=
  match s with
  | [] => []
  | (n, t) :: s' =>
      if Text.ieqb n name then s' else (n, t) :: remove_table name s'
  end.

(** [DROP TABLE name] *)
Definition drop_table (name : string) (t : table) : statement :=
  fun w => Py.Returned (remove_table name w, None).

Definition clear_rows (t : table) : table :=
  Table (tbl_columns t) (tbl_fks t) [].

(** [DELETE FROM name] *)
Definition delete_from (name : string) (t : table) : statement :=
  fun w => Py.Returned (update_table name clear_rows w, None).

Definition raising (e : Py.exn) : statement := fun _ => Py.Raised e.

(** [sqlite3_prepare] and the run of the statement, for any text.  Read
    here: a text whose first word is not one a statement can begin with;
    the count of a table; dropping a table; emptying a table.  The rest
    goes to the backend. *)
Definition prepare (B : backend) (sql : string) : statement :=
  if all_chars is_printable sql then
    match words sql with
    | [] => run_other B sql
    | w1 :: ws =>
        if is_identifier w1 && negb (is_starter w1) then
          raising (syntax_error w1)
        else
          match ws with
          | [w2; w3; w4] =>
              if String.eqb (Text.lower w1) "select"
                 && String.eqb (Text.lower w2) "count(*)"
                 && String.eqb (Text.lower w3) "from"
                 && is_name w4
              then on_table B sql w4 (select_count w2)
              else run_other B sql
          | [w2; w3] =>
              if String.eqb (Text.lower w1) "drop"
                 && String.eqb (Text.lower w2) "table"
                 && is_name w3
              then on_table B sql w3 (drop_table w3)
              else if String.eqb (Text.lower w1) "delete"
                      && String.eqb (Text.lower w2) "from"
                      && is_name w3
              then on_table B sql w3 (delete_from w3)
              else run_other B sql
          | _ => run_other B sql
          end
    end
  else run_other B sql.

(** The statement [PRAGMA table_info(text)] with [text] spliced in as it
    is.  When the text is made of words and blanks only: no word is a
    syntax error at the closing parenthesis, a reserved first word is a
    syntax error, a second word is a syntax error, and a single name
    yields the columns of that table of the file, none when neither the
    file nor the engine has such a table.  The pragma changes nothing. *)
Definition pragma_table_info (B : backend) (text : string) (w : Store)
  : Py.result (list column) :=
  if all_chars (fun c => is_word_char c || is_blank c) text then
    match words text with
    | [] => Py.Raised (syntax_error ")")
    | w1 :: ws =>
        if is_identifier w1 then
          if is_reserved w1 then Py.Raised (syntax_error w1)
          else
            match ws with
            | [] =>
                match lookup_table w1 w with
                | Some t => Py.Returned (tbl_columns t)
                | None =>
                    if builtin_table B w1 then table_info_other B text w
                    else Py.Returned []
                end
            | w2 :: _ =>
                if is_identifier w2 then Py.Raised (syntax_error w2)
                else table_info_other B text w
            end
        else table_info_other B text w
    end
  else table_info_other B text w.

Fixpoint lstrip (s : string) : string :=
  match s with
  | EmptyString => EmptyString
  | String c s' => if is_blank c then lstrip s' else s
  end.

(** How the [sqlite3] module decides that a statement is DML: the text,
    after leading blanks, begins with one of four words, in any case. *)
Definition is_dml (sql : string) : bool :=
  let p := Text.lower (lstrip sql) in
  String.prefix "insert" p || String.prefix "update" p
  || String.prefix "delete" p || String.prefix "replace" p.

(** A backend for closed examples: it defines the system tables of
    SQLite 3.40 as built in and refuses every text it is handed. *)
Definition builtin_3_40 (w : string) : bool :=
  let l := Text.lower w in
  String.prefix "sqlite_" l || String.prefix "pragma_" l
  || mem l ["json_each"; "json_tree"; "dbstat"; "fts3tokenize"].

Definition refusing_backend : backend :=
  Backend builtin_3_40
    (fun sql => raising (Py.Exn Py.OperationalError "not read by the model"))
    (fun _ _ => Py.Raised (Py.Exn Py.OperationalError "not read by the model")).

End SqlText.

(** ** Text as Python sees it *)

Module Utf8.

(** UTF-8 decoding of a TEXT value into code points, byte by byte:
    [need] continuation bytes are still expected for the code point
    [acc], which must not be below [low]. *)
Fixpoint decode_from (s : string) (need : nat) (acc low : N) : option (list N) :=
  match s with
  | EmptyString => match need with O => Some [] | S _ => None end
  | String c s' =>
      let b := N_of_ascii c in
      match need with
      | O =>
          if (b <? 128)%N then option_map (cons b) (decode_from s' 0 0%N 0%N)
          else if ((194 <=? b) && (b <=? 223))%N then
            decode_from s' 1 (b - 192)%N 128%N
          else if ((224 <=? b) && (b <=? 239))%N then
            decode_from s' 2 (b - 224)%N 2048%N
          else if ((240 <=? b) && (b <=? 244))%N then
            decode_from s' 3 (b - 240)%N 65536%N
          else None
      | S n =>
          if ((128 <=? b) && (b <=? 191))%N then
            let acc' := (acc * 64 + (b - 128))%N in
            match n with
            | O =>
                if ((low <=? acc') && (acc' <=? 1114111)
                    && negb ((55296 <=? acc') && (acc' <=? 57343)))%N
                then option_map (cons acc') (decode_from s' 0 0%N 0%N)
                else None
            | S _ => decode_from s' n acc' low
            end
          else None
      end
  end.

Definition decode (s : string) : option (list N) := decode_from s 0 0%N 0%N.

Definition valid (s : string) : bool :=
  match decode s with Some _ => true | None => false end.

Definition code_points (s : string) : list N :=
  match decode s with Some l => l | None => [] end.

End Utf8.

(** ** JSON text *)

Module Json.

Definition hex_digit (n : N) : string :=
  String (ascii_of_N (if (n <? 10)%N then 48 + n else 87 + n)%N) EmptyString.

Definition hex4 (n : N) : string :=
  hex_digit (n / 4096 mod 16) +++ hex_digit (n / 256 mod 16)
  +++ hex_digit (n / 16 mod 16) +++ hex_digit (n mod 16).

Definition backslash : string := String (ascii_of_nat 92) EmptyString.

Definition unicode_escape (n : N) : string := backslash +++ "u" +++ hex4 n.

(** One code point inside a JSON string, ASCII only in the output.
    [slash] says whether the solidus is escaped: pandas does, the [json]
    module does not. *)
Definition escape (slash : bool) (cp : N) : string :=
  if (cp =? 34)%N then backslash +++ Text.dquote
  else if (cp =? 92)%N then backslash +++ backslash
  else if (cp =? 10)%N then backslash +++ "n"
  else if (cp =? 13)%N then backslash +++ "r"
  else if (cp =? 9)%N then backslash +++ "t"
  else if (cp =? 8)%N then backslash +++ "b"
  else if (cp =? 12)%N then backslash +++ "f"
  else if ((cp =? 47)%N && slash) then backslash +++ "/"
  else if (cp <? 32)%N then unicode_escape cp
  else if (cp <? 128)%N then String (ascii_of_N cp) EmptyString
  else if (cp <? 65536)%N then unicode_escape cp
  else
    let v := (cp - 65536)%N in
    unicode_escape (55296 + v / 1024) +++ unicode_escape (56320 + v mod 1024).

Definition quote (slash : bool) (s : string) : string :=
  Text.dquote
  +++ Text.concat_all (map (escape slash) (Utf8.code_points s))
  +++ Text.dquote.

Definition of_bool (b : bool) : string := if b then "true" else "false".

(** [json.dumps(l, indent=2)] for a list whose items are already
    rendered at depth one. *)
Definition dumps_list (items : list string) : string :=
  match items with
  | [] => "[]"
  | _ =>
      "[" +++ Text.newline +++ "  "
      +++ Text.join ("," +++ Text.newline +++ "  ") items
      +++ Text.newline +++ "]"
  end.

(** A dict with at least one key, at depth one of [indent=2]: the keys
    with their rendered values. *)
Definition dumps_dict (fields : list (string * string)) : string :=
  "{" +++ Text.newline +++ "    "
  +++ Text.join ("," +++ Text.newline +++ "    ")
        (map (fun kv => quote false (fst kv) +++ ": " +++ snd kv) fields)
  +++ Text.newline +++ "  }".

(** [json.dumps] of a list of strings. *)
Definition dumps_strings (l : list string) : string :=
  dumps_list (map (quote false) l).

End Json.

(** ** pandas: [read_sql_query] and [DataFrame.to_json] *)

Module Pandas.
Import Sql Sqlite3.

(** A cell of a frame.  [CNull] is [None] or NaN; both are written
    [null]. *)
Inductive cell : Type :=
| CNull
| CInt (z : Z)
| CFloat (q : Q)
| CStr (s : string).

Record DataFrame : Type := Frame {
  df_columns : list string;
  df_rows : list (list cell)
}.

Inductive dtype : Type := DInt | DFloat | DObject.

Definition is_text (v : value) : bool :=
  match v with VText _ => true | _ => false end.
Definition is_int (v : value) : bool :=
  match v with VInt _ => true | _ => false end.

(** The type pandas gives a fetched column ([coerce_float=True]): text
    keeps every value as it is, integers stay integers, and numbers mixed
    with reals or NULLs become floats. *)
Definition column_dtype (vals : list value) : dtype :=
  if existsb is_text vals then DObject
  else if forallb is_null vals then DObject
  else if forallb is_int vals then DInt
  else DFloat.

Definition to_cell (d : dtype) (v : value) : cell :=
  match v with
  | VNull => CNull
  | VInt z => match d with DFloat => CFloat (inject_Z z) | _ => CInt z end
  | VReal q => CFloat q
  | VText s => CStr s
  end.

Definition dtypes (ncols : nat) (rows : list row) : list dtype :=
  map (fun i => column_dtype (map (Sql.cell i) rows)) (seq 0 ncols).

Definition wrap_result (rs : result_set) : DataFrame :=
  let ds := dtypes (List.length (rs_columns rs)) (rs_rows rs) in
  Frame (rs_columns rs)
        (map (fun r => map (fun dv => to_cell (fst dv) (snd dv)) (combine ds r))
             (rs_rows rs)).

Definition text_ok (v : value) : bool :=
  match v with VText s => Utf8.valid s | _ => true end.

(** [cursor.fetchall()]: TEXT that is not UTF-8 cannot become a [str]. *)
Definition fetchall (rs : result_set) : Py.result (list row) :=
  if forallb Utf8.valid (rs_columns rs) && forallb (forallb text_ok) (rs_rows rs)
  then Py.Returned (rs_rows rs)
  else Py.Raised (Py.Exn Py.OperationalError "Could not decode to UTF-8 column").

(** [pd.read_sql_query(sql, conn)].  pandas rolls back and wraps what
    [execute] raises; a statement without result columns breaks the
    iteration over [cursor.description]. *)
Definition read_sql_query (dml : bool) (st : statement) (sql : string)
    (c : connection) : connection * Py.result DataFrame :=
  match execute dml st c with
  | (c', Py.Raised e) =>
      (rollback c',
       Py.Raised (Py.Exn Py.DatabaseError
         ("Execution failed on sql '" +++ sql +++ "': " +++ Py.str e)))
  | (c', Py.Returned None) =>
      (c', Py.Raised (Py.Exn Py.TypeError "'NoneType' object is not iterable"))
  | (c', Py.Returned (Some rs)) =>
      match fetchall rs with
      | Py.Raised e => (c', Py.Raised e)
      | Py.Returned _ => (c', Py.Returned (wrap_result rs))
      end
  end.

Definition round_half_even (n d : Z) : Z :=
  let q := (n / d)%Z in
  let r := (n mod d)%Z in
  if (d <? 2 * r)%Z then (q + 1)%Z
  else if (2 * r =? d)%Z then (if Z.odd q then q + 1 else q)%Z
  else q.

Fixpoint all_digits (width : nat) (frac : Z) : string :=
  match width with
  | O => EmptyString
  | S w => all_digits w (frac / 10)%Z +++ Text.of_Z (frac mod 10)%Z
  end.

(** The digits after the point: [frac] on [width] digits, cut after its
    last digit that is not zero. *)
Fixpoint significant_digits (width : nat) (frac : Z) : string :=
  match width with
  | O => EmptyString
  | S w =>
      if (frac mod 10 =? 0)%Z then significant_digits w (frac / 10)%Z
      else all_digits width frac
  end.

(** A float in JSON with [double_precision=10]. *)
Definition format_double (q : Q) : string :=
  let n := Z.abs (Qnum q) in
  let d := Zpos (Qden q) in
  let scaled := round_half_even (n * 10000000000)%Z d in
  let whole := (scaled / 10000000000)%Z in
  let frac := (scaled mod 10000000000)%Z in
  (if ((Qnum q <? 0) && negb (scaled =? 0))%Z then "-" else "")
  +++ Text.of_Z whole +++ "."
  +++ (if (frac =? 0)%Z then "0" else significant_digits 10 frac).

Definition render_cell (c : cell) : string :=
  match c with
  | CNull => "null"
  | CInt z => Text.of_Z z
  | CFloat q => format_double q
  | CStr s => Json.quote true s
  end.

Definition render_record (cols : list string) (r : list cell) : string :=
  "  {" +++ Text.newline
  +++ Text.join ("," +++ Text.newline)
        (map (fun kv => "    " +++ Json.quote true (fst kv) +++ ":"
                        +++ render_cell (snd kv))
             (combine cols r))
  +++ Text.newline +++ "  }".

Fixpoint has_duplicates (l : list string) : bool :=
  match l with
  | [] => false
  | x :: l' => existsb (String.eqb x) l' || has_duplicates l'
  end.

(** [df.to_json(orient='records', indent=2)] *)
Definition to_json (df : DataFrame) : Py.result string :=
  if has_duplicates (df_columns df) then
    Py.Raised (Py.Exn Py.ValueError
      "DataFrame columns must be unique for orient='records'.")
  else
    Py.Returned
      ("[" +++ Text.newline
       +++ Text.join ("," +++ Text.newline)
             (map (render_record (df_columns df)) (df_rows df))
       +++ Text.newline +++ "]").

End Pandas.

(** ** [class DatabasePlugin] *)

Module DatabasePlugin.
Import Sql Sqlite3 SqlText.

(** [execute_query(self, query)]: the file after the call and the
    outcome of the call.  Every path of the [try] ends in a [return]. *)
Definition execute_query (B : backend) (db_path : Store) (query : string)
  : Store * Py.result string :=
  let conn := connect db_path in
  match Pandas.read_sql_query (is_dml query) (prepare B query) query conn with
  | (conn, Py.Raised e) =>
      (close conn, Py.Returned ("Error executing query: " +++ Py.str e))
  | (conn, Py.Returned df) =>
      match Pandas.to_json df with
      | Py.Raised e =>
          (close conn, Py.Returned ("Error executing query: " +++ Py.str e))
      | Py.Returned text => (close conn, Py.Returned text)
      end
  end.

(** One entry of [schema_info]. *)
Record descriptor : Type := Descriptor {
  d_column : string;
  d_type : string;
  d_nullable : bool;
  d_default : option string
}.

(** The loop over [columns]: [col[1]], [col[2]], [not col[3]], [col[4]]. *)
Definition schema_info (columns : list column) : list descriptor :=
  map (fun col => Descriptor (col_name col) (col_type col)
                    (negb (col_notnull col)) (col_default col))
      columns.

Definition dumps_descriptor (d : descriptor) : string :=
  Json.dumps_dict
    [ ("column", Json.quote false (d_column d));
      ("type", Json.quote false (d_type d));
      ("nullable", Json.of_bool (d_nullable d));
      ("default", match d_default d with
                  | None => "null"
                  | Some s => Json.quote false s
                  end) ].

(** [json.dumps(schema_info, indent=2)] *)
Definition dumps_schema (info : list descriptor) : string :=
  Json.dumps_list (map dumps_descriptor info).

Definition column_text_ok (c : column) : bool :=
  Utf8.valid (col_name c) && Utf8.valid (col_type c)
  && match col_default c with None => true | Some s => Utf8.valid s end.

(** The rows of [PRAGMA table_info] as [fetchall] hands them over. *)
Definition fetch_columns (B : backend) (table_name : string) (db : Store)
  : Py.result (list column) :=
  columns <- pragma_table_info B table_name db ;;
  if forallb column_text_ok columns then Py.Returned columns
  else Py.Raised (Py.Exn Py.OperationalError "Could not decode to UTF-8 column").

(** [get_table_schema(self, table_name)] *)
Definition get_table_schema (B : backend) (db_path : Store)
    (table_name : string) : Store * Py.result string :=
  match fetch_columns B table_name db_path with
  | Py.Raised e =>
      (db_path, Py.Returned ("Error getting schema: " +++ Py.str e))
  | Py.Returned columns =>
      (db_path, Py.Returned (dumps_schema (schema_info columns)))
  end.

(** [SELECT name FROM sqlite_master WHERE type='table'] *)
Definition select_table_names (db : Store) : Py.result (list string) :=
  if forallb Utf8.valid (map fst db) then Py.Returned (map fst db)
  else Py.Raised (Py.Exn Py.OperationalError "Could not decode to UTF-8 column").

(** [list_tables(self)] *)
Definition list_tables (db_path : Store) : Store * Py.result string :=
  match select_table_names db_path with
  | Py.Raised e =>
      (db_path, Py.Returned ("Error listing tables: " +++ Py.str e))
  | Py.Returned table_list =>
      (db_path, Py.Returned (Json.dumps_strings table_list))
  end.

End DatabasePlugin.

(** ** The two SELECT statements of [AnalyticsPlugin] *)

Module Query.
Import Sql.

Definition int64_min : Z := (-9223372036854775808)%Z.
Definition int64_max : Z := 9223372036854775807%Z.

Definition in_int64 (z : Z) : bool :=
  ((int64_min <=? z) && (z <=? int64_max))%Z.

(** The number a value stands for in arithmetic.  TEXT counts as 0: in
    a column of INTEGER or REAL affinity, text that reads as a number is
    stored as that number, so what is left as text does not. *)
Definition as_Z (v : value) : Z :=
  match v with VInt z => z | _ => 0%Z end.

Definition as_Q (v : value) : Q :=
  match v with VInt z => inject_Z z | VReal q => q | _ => 0 end.

(** A binary operator: NULL in, NULL out; a REAL operand gives a REAL;
    two integers give an integer, or a REAL when the result leaves 64
    bits. *)
Definition arith (fz : Z -> Z -> Z) (fq : Q -> Q -> Q) (a b : value) : value :=
  match a, b with
  | VNull, _ | _, VNull => VNull
  | VReal _, _ | _, VReal _ => REAL (fq (as_Q a) (as_Q b))
  | _, _ =>
      let r := fz (as_Z a) (as_Z b) in
      if in_int64 r then VInt r else REAL (inject_Z r)
  end.

Definition mul : value -> value -> value := arith Z.mul Qmult.
Definition sub : value -> value -> value := arith Z.sub Qminus.

(** The order of ORDER BY and GROUP BY: NULL, then numbers by value,
    then text bytewise. *)
Definition value_compare (a b : value) : comparison :=
  match a, b with
  | VNull, VNull => Eq
  | VNull, _ => Lt
  | _, VNull => Gt
  | VText x, VText y => String.compare x y
  | VText _, _ => Gt
  | _, VText _ => Lt
  | _, _ => Qcompare (as_Q a) (as_Q b)
  end.

Fixpoint key_compare (a b : list value) : comparison :=
  match a, b with
  | [], [] => Eq
  | [], _ :: _ => Lt
  | _ :: _, [] => Gt
  | x :: a', y :: b' =>
      match value_compare x y with
      | Eq => key_compare a' b'
      | c => c
      end
  end.

(** The accumulator of SUM and AVG, as SQLite keeps it. *)
Record sum_state : Type := SumState {
  iSum : Z;
  rSum : Q;
  approx : bool;
  overflow : bool;
  cnt : nat
}.

Definition sum_init : sum_state := SumState 0 0 false false 0.

Definition sum_step (p : sum_state) (v : value) : sum_state :=
  match v with
  | VNull => p
  | VInt z =>
      if approx p || overflow p then
        SumState (iSum p) (rSum p + inject_Z z) (approx p) (overflow p) (S (cnt p))
      else if in_int64 (iSum p + z) then
        SumState (iSum p + z) (rSum p + inject_Z z) false false (S (cnt p))
      else
        SumState (iSum p) (rSum p + inject_Z z) true true (S (cnt p))
  | _ =>
      SumState (iSum p) (rSum p + as_Q v) true (overflow p) (S (cnt p))
  end.

Definition accumulate (vals : list value) : sum_state :=
  fold_left sum_step vals sum_init.

(** [SUM(x)] over a group *)
Definition sum (vals : list value) : Py.result value :=
  let p := accumulate vals in
  match cnt p with
  | O => Py.Returned VNull
  | S _ =>
      if overflow p then
        Py.Raised (Py.Exn Py.OperationalError "integer overflow")
      else if approx p then Py.Returned (REAL (rSum p))
      else Py.Returned (VInt (iSum p))
  end.

(** [AVG(x)] over a group *)
Definition avg (vals : list value) : value :=
  let p := accumulate vals in
  match cnt p with
  | O => VNull
  | S _ => REAL (rSum p / inject_Z (Z.of_nat (cnt p)))
  end.

(** [COUNT(x)] over a group *)
Definition count (vals : list value) : value :=
  VInt (Z.of_nat (List.length (filter (fun v => negb (is_null v)) vals))).

(** GROUP BY: the groups in ascending order of their key, each with its
    members in the order they arrived. *)
Fixpoint group_add {A : Type} (k : list value) (x : A)
    (gs : list (list value * list A)) : list (list value * list A) :=
  match gs with
  | [] => [(k, [x])]
  | (k', xs) :: gs' =>
      match key_compare k k' with
      | Eq => (k', (xs ++ [x])%list) :: gs'
      | Lt => (k, [x]) :: gs
      | Gt => (k', xs) :: group_add k x gs'
      end
  end.

Definition group_by {A : Type} (key : A -> list value) (l : list A)
  : list (list value * list A) :=
  fold_left (fun gs x => group_add (key x) x gs) l [].

(** ORDER BY one column DESC.  SQL leaves the order of rows with equal
    values open; for the two statements below SQLite 3.40 keeps such rows
    in the order in which the groups were produced, which is what this
    stable insertion does. *)
Fixpoint insert_desc (i : nat) (x : row) (l : list row) : list row :=
  match l with
  | [] => [x]
  | y :: l' =>
      match value_compare (cell i x) (cell i y) with
      | Gt => x :: l
      | _ => y :: insert_desc i x l'
      end
  end.

Definition sort_desc (i : nat) (l : list row) : list row :=
  fold_left (fun acc x => insert_desc i x acc) l [].

(** [LIMIT n] with the integer written out in the text: outside 64 bits
    the literal is not an integer; below zero there is no limit. *)
Definition limit_clause (n : Z) : Py.result (option nat) :=
  if in_int64 n then
    Py.Returned (if (n <? 0)%Z then None else Some (Z.to_nat n))
  else Py.Raised (Py.Exn Py.IntegrityError "datatype mismatch").

Definition apply_limit (l : option nat) (rows : list row) : list row :=
  match l with
  | None => rows
  | Some n => firstn n rows
  end.

Fixpoint collect {A B : Type} (f : A -> Py.result B) (l : list A)
  : Py.result (list B) :=
  match l with
  | [] => Py.Returned []
  | x :: l' =>
      y <- f x ;;
      ys <- collect f l' ;;
      Py.Returned (y :: ys)
  end.

Definition scan (name : string) (db : Store) : Py.result table :=
  match lookup_table name db with
  | Some t => Py.Returned t
  | None => Py.Raised (Py.Exn Py.OperationalError ("no such table: " +++ name))
  end.

Definition column (alias name : string) (t : table) : Py.result nat :=
  match column_index name (tbl_columns t) with
  | Some i => Py.Returned i
  | None =>
      Py.Raised (Py.Exn Py.OperationalError
        ("no such column: " +++ alias +++ "." +++ name))
  end.

(** [od.UnitPrice * od.Quantity * (1 - od.Discount)] *)
Definition line_revenue (price qty disc : nat) (od : row) : value :=
  mul (mul (cell price od) (cell qty od)) (sub (VInt 1) (cell disc od)).

(** The query of [analyze_sales_by_category]. *)
Definition sales_by_category (db : Store) : Py.result result_set :=
  od <- scan "OrderDetails" db ;;
  p <- scan "Products" db ;;
  c <- scan "Categories" db ;;
  c_name <- column "c" "CategoryName" c ;;
  od_order <- column "od" "OrderID" od ;;
  od_qty <- column "od" "Quantity" od ;;
  od_price <- column "od" "UnitPrice" od ;;
  od_disc <- column "od" "Discount" od ;;
  od_prod <- column "od" "ProductID" od ;;
  p_prod <- column "p" "ProductID" p ;;
  p_cat <- column "p" "CategoryID" p ;;
  c_cat <- column "c" "CategoryID" c ;;
  let joined :=
    flat_map (fun o =>
      flat_map (fun pr =>
        if value_eqb (cell od_prod o) (cell p_prod pr) then
          flat_map (fun ca =>
            if value_eqb (cell p_cat pr) (cell c_cat ca) then [(o, ca)] else [])
            (tbl_rows c)
        else [])
        (tbl_rows p))
      (tbl_rows od) in
  let groups := group_by (fun j => [cell c_name (snd j)]) joined in
  rows <- collect (fun g =>
      let lines := map fst (snd g) in
      let revenues := map (line_revenue od_price od_qty od_disc) lines in
      total_quantity <- sum (map (cell od_qty) lines) ;;
      total_revenue <- sum revenues ;;
      Py.Returned [ cell 0 (fst g); count (map (cell od_order) lines);
                    total_quantity; total_revenue; avg revenues ])
    groups ;;
  Py.Returned
    (ResultSet
       ["CategoryName"; "TotalOrders"; "TotalQuantity"; "TotalRevenue";
        "AvgOrderValue"]
       (sort_desc 3 rows)).

(** The tables and columns the query of [get_top_products] names,
    resolved when the statement is prepared. *)
Record top_names : Type := TopNames {
  tn_products : table;
  tn_categories : table;
  tn_details : table;
  p_name : nat;
  c_name : nat;
  od_qty : nat;
  od_price : nat;
  od_disc : nat;
  p_cat : nat;
  c_cat : nat;
  p_prod : nat;
  od_prod : nat
}.

Definition top_products_names (db : Store) : Py.result top_names :=
  p <- scan "Products" db ;;
  c <- scan "Categories" db ;;
  od <- scan "OrderDetails" db ;;
  i1 <- column "p" "ProductName" p ;;
  i2 <- column "c" "CategoryName" c ;;
  i3 <- column "od" "Quantity" od ;;
  i4 <- column "od" "UnitPrice" od ;;
  i5 <- column "od" "Discount" od ;;
  i6 <- column "p" "CategoryID" p ;;
  i7 <- column "c" "CategoryID" c ;;
  i8 <- column "p" "ProductID" p ;;
  i9 <- column "od" "ProductID" od ;;
  Py.Returned (TopNames p c od i1 i2 i3 i4 i5 i6 i7 i8 i9).

(** The rows of the query before LIMIT: products joined to their
    category, left-joined to their order lines (a product without lines
    is joined to one line of NULLs), grouped, summed and ordered. *)
Definition top_products_rows (n : top_names) : Py.result (list row) :=
  let joined :=
    flat_map (fun pr =>
      flat_map (fun ca =>
        if value_eqb (cell (p_cat n) pr) (cell (c_cat n) ca) then
          match filter (fun o => value_eqb (cell (p_prod n) pr)
                                            (cell (od_prod n) o))
                       (tbl_rows (tn_details n)) with
          | [] => [((pr, ca), [])]
          | lines => map (fun o => ((pr, ca), o)) lines
          end
        else [])
        (tbl_rows (tn_categories n)))
      (tbl_rows (tn_products n)) in
  let groups :=
    group_by (fun j => [ cell (p_name n) (fst (fst j));
                         cell (c_name n) (snd (fst j)) ])
             joined in
  rows <- collect (fun g =>
      let lines := map snd (snd g) in
      total_quantity <- sum (map (cell (od_qty n)) lines) ;;
      total_revenue <-
        sum (map (line_revenue (od_price n) (od_qty n) (od_disc n)) lines) ;;
      Py.Returned [ cell 0 (fst g); cell 1 (fst g);
                    total_quantity; total_revenue ])
    groups ;;
  Py.Returned (sort_desc 3 rows).

Definition top_products_columns : list string :=
  ["ProductName"; "CategoryName"; "TotalQuantitySold"; "TotalRevenue"].

(** The query of [get_top_products], with [limit] written into its
    LIMIT clause.  The limit is read before any row is computed, and a
    limit of zero computes none. *)
Definition top_products (limit : Z) (db : Store) : Py.result result_set :=
  n <- top_products_names db ;;
  lim <- limit_clause limit ;;
  match lim with
  | Some O => Py.Returned (ResultSet top_products_columns [])
  | _ =>
      rows <- top_products_rows n ;;
      Py.Returned (ResultSet top_products_columns (apply_limit lim rows))
  end.

End Query.

(** ** [class AnalyticsPlugin] *)

Module AnalyticsPlugin.
Import Sql Sqlite3.

Definition run_select (q : Store -> Py.result result_set) : statement :=
  fun w => rs <- q w ;; Py.Returned (w, Some rs).

Definition sales_sql : string := "
        SELECT 
            c.CategoryName,
            COUNT(od.OrderID) as TotalOrders,
            SUM(od.Quantity) as TotalQuantity,
            SUM(od.UnitPrice * od.Quantity * (1 - od.Discount)) as TotalRevenue,
            AVG(od.UnitPrice * od.Quantity * (1 - od.Discount)) as AvgOrderValue
        FROM OrderDetails od
        JOIN Products p ON od.ProductID = p.ProductID
        JOIN Categories c ON p.CategoryID = c.CategoryID
        GROUP BY c.CategoryName
        ORDER BY TotalRevenue DESC
        ".

(** [analyze_sales_by_category(self)] *)
Definition analyze_sales_by_category (db_path : Store)
  : Store * Py.result string :=
  let query := sales_sql in
  let conn := connect db_path in
  match Pandas.read_sql_query (SqlText.is_dml query)
          (run_select Query.sales_by_category) query conn with
  | (conn, Py.Raised e) =>
      (close conn, Py.Returned ("Error analyzing sales: " +++ Py.str e))
  | (conn, Py.Returned df) =>
      match Pandas.to_json df with
      | Py.Raised e =>
          (close conn, Py.Returned ("Error analyzing sales: " +++ Py.str e))
      | Py.Returned text => (close conn, Py.Returned text)
      end
  end.

(** The f-string of [get_top_products]. *)
Definition top_products_sql (limit : Z) : string :=
  "
        SELECT 
            p.ProductName,
            c.CategoryName,
            SUM(od.Quantity) as TotalQuantitySold,
            SUM(od.UnitPrice * od.Quantity * (1 - od.Discount)) as TotalRevenue
        FROM Products p
        JOIN Categories c ON p.CategoryID = c.CategoryID
        LEFT JOIN OrderDetails od ON p.ProductID = od.ProductID
        GROUP BY p.ProductName, c.CategoryName
        ORDER BY TotalRevenue DESC
        LIMIT " +++ Text.of_Z limit +++ "
        ".

Definition default_limit : Z := 10.

(** [get_top_products(self, limit=10)]; [None] stands for a call that
    leaves [limit] out. *)
Definition get_top_products (db_path : Store) (limit : option Z)
  : Store * Py.result string :=
  let limit := match limit with Some n => n | None => default_limit end in
  let query := top_products_sql limit in
  let conn := connect db_path in
  match Pandas.read_sql_query (SqlText.is_dml query)
          (run_select (Query.top_products limit)) query conn with
  | (conn, Py.Raised e) =>
      (close conn, Py.Returned ("Error getting top products: " +++ Py.str e))
  | (conn, Py.Returned df) =>
      match Pandas.to_json df with
      | Py.Raised e =>
          (close conn,
           Py.Returned ("Error getting top products: " +++ Py.str e))
      | Py.Returned text => (close conn, Py.Returned text)
      end
  end.

End AnalyticsPlugin.

(** ** The properties the claims are about *)

Module Properties.
Import Sql NorthwindDatabase.

(** The columns [tables] declares for a name. *)
Fixpoint declared_in (ds : list (string * (list column * list foreign_key)))
    (name : string) : option (list column) :=
  match ds with
  | [] => None
  | d :: ds' =>
      if String.eqb (fst d) name then Some (fst (snd d))
      else declared_in ds' name
  end.

Definition declared (name : string) : option (list column) :=
  declared_in tables name.

(** A store of this program: each of the eleven tables is either absent
    or has the columns [setup_database] declares for it. *)
Definition conforms (s : Store) : Prop :=
  forall name cols t,
    declared name = Some cols ->
    lookup_table name s = Some t ->
    tbl_columns t = cols.

(** The store after the CREATE statements of a list of declarations. *)
Definition create_all (ds : list (string * (list column * list foreign_key)))
    (s : Store) : Store :=
  fold_left
    (fun w d => create_table_if_not_exists (fst d) (fst (snd d)) (snd (snd d)) w)
    ds s.

(** The single INSERT OR IGNORE runs of [insert_sample_data], in order. *)
Definition script (data : list (string * list row)) : list (string * row) :=
  flat_map (fun nr => map (pair (fst nr)) (snd nr)) data.

Fixpoint run_script (es : list (string * row)) (w : Store)
  : Store * Py.result unit :=
  match es with
  | [] => (w, Py.Returned tt)
  | e :: es' =>
      match insert_or_ignore (fst e) (snd e) w with
      | Py.Raised x => (w, Py.Raised x)
      | Py.Returned w' => run_script es' w'
      end
  end.

(** Every declared table is there, with its declared columns. *)
Definition schema_ok (s : Store) : Prop :=
  forall name cols,
    declared name = Some cols ->
    exists t, lookup_table name s = Some t /\ tbl_columns t = cols.

(** The row of an INSERT OR IGNORE would be skipped in this store. *)
Definition settled (e : string * row) (s : Store) : Prop :=
  exists t,
    lookup_table (fst e) s = Some t /\
    Nat.eqb (List.length (snd e)) (List.length (tbl_columns t)) = true /\
    notnull_violation (tbl_columns t) (snd e)
    || key_conflict (tbl_columns t) (tbl_rows t) (snd e) = true.

(** [s'] has the tables of [s], with the same columns and with the rows
    of [s] followed by further rows. *)
Definition grows (s s' : Store) : Prop :=
  forall n t,
    lookup_table n s = Some t ->
    exists t',
      lookup_table n s' = Some t' /\
      tbl_columns t' = tbl_columns t /\
      exists extra, tbl_rows t' = (tbl_rows t ++ extra)%list.

(** A sample row fits its declared table and has a key. *)
Definition entry_ok (e : string * row) : bool :=
  match declared (fst e) with
  | Some cols =>
      Nat.eqb (List.length (snd e)) (List.length cols)
      && key_conflict cols [snd e] (snd e)
  | None => false
  end.

Definition is_some {A : Type} (o : option A) : bool :=
  match o with Some _ => true | None => false end.

Definition row_counts (s : Store) : list (option nat) :=
  map (fun name => row_count name s) table_names.

(** Whether some row of the referenced table carries the value. *)
Definition referenced (s : Store) (fk : foreign_key) (v : value) : bool :=
  match lookup_table (fk_table fk) s with
  | None => false
  | Some t =>
      match column_index (fk_ref fk) (tbl_columns t) with
      | None => false
      | Some j => existsb (fun r => value_eqb v (cell j r)) (tbl_rows t)
      end
  end.

(** The foreign-key values that reference no row: table, column and the
    row that holds the value.  NULL references nothing and is allowed. *)
Definition dangling (s : Store) : list (string * string * row) :=
  flat_map (fun nt =>
    flat_map (fun fk =>
      match column_index (fk_column fk) (tbl_columns (snd nt)) with
      | None => []
      | Some i =>
          map (fun r => (fst nt, fk_column fk, r))
              (filter (fun r => negb (is_null (cell i r))
                                && negb (referenced s fk (cell i r)))
                      (tbl_rows (snd nt)))
      end)
      (tbl_fks (snd nt)))
    s.


(** Rows in descending order of one column. *)
Fixpoint descending (i : nat) (rows : list row) : bool :=
  match rows with
  | [] => true
  | r1 :: rest =>
      match rest with
      | [] => true
      | r2 :: _ =>
          match Query.value_compare (cell i r1) (cell i r2) with
          | Lt => false
          | _ => true
          end
      end && descending i rest
  end.

(** The rows the query of [get_top_products] has on the seeded store
    before LIMIT: the four products with order lines by descending
    revenue, then the six without, which tie, by name. *)
Definition seeded_top_rows : list row :=
  [ [VText "Chef Anton Cajun Seasoning"; VText "Condiments"; VInt 15; REAL 280.5];
    [VText "Chai"; VText "Beverages"; VInt 12; REAL 216.0];
    [VText "Chang"; VText "Beverages"; VInt 10; REAL 190.0];
    [VText "Aniseed Syrup"; VText "Condiments"; VInt 5; REAL 50.0];
    [VText "Gorgonzola Telino"; VText "Dairy Products"; VNull; VNull];
    [VText "Gumbo Mix"; VText "Condiments"; VNull; VNull];
    [VText "Mascarpone Fabioli"; VText "Dairy Products"; VNull; VNull];
    [VText "Mozzarella di Giovanni"; VText "Dairy Products"; VNull; VNull];
    [VText "R√∏gede sild"; VText "Seafood"; VNull; VNull];
    [VText "Spegesild"; VText "Seafood"; VNull; VNull] ].

Definition rows_of (name : string) (s : Store) : list row :=
  match lookup_table name s with
  | Some t => tbl_rows t
  | None => []
  end.

(** The order lines of a product: the OrderDetails rows whose ProductID
    (column 1) is the ProductID of the product (column 0). *)
Definition lines_of_product (s : Store) (product : row) : list row :=
  filter (fun od => value_eqb (cell 1 od) (cell 0 product))
         (rows_of "OrderDetails" s).






End Properties.

(** ** Primary keys *)

Module Keys.
Import Sql NorthwindDatabase.

(** No row has the key of a later row. *)
Fixpoint distinct_keys (pks : list nat) (rows : list row) : bool :=
  match rows with
  | [] => true
  | r :: rest => negb (existsb (same_key pks r) rest) && distinct_keys pks rest
  end.

(** The rows of a table with a primary key have distinct keys.  A key
    with a NULL in it equals no key. *)
Definition keys_unique (t : table) : bool :=
  match pk_positions (tbl_columns t) with
  | [] => true
  | pks => distinct_keys pks (tbl_rows t)
  end.

Definition all_keys_unique (s : Store) : Prop :=
  forall n t, lookup_table n s = Some t -> keys_unique t = true.

(** A file in which another program has left a Suppliers table of one
    column. *)
Definition store_with_other_suppliers : Store :=
  [ ("Suppliers", Table [plain "Name" "TEXT"] [] [[VText "Acme"]]) ].

End Keys.

(* ================================================================== *)
(* Theorems                                                            *)
(* ================================================================== *)

Example of_Z_samples :
Text.of_Z 5 = "5" /\ Text.of_Z 0 = "0" /\ Text.of_Z (-12) = "-12".
Proof. repeat split; reflexivity. Qed.

Import Sql Sqlite3 SqlText NorthwindDatabase Properties.

(** *** The run-query operation *)




(** The invalid statement of the test suite. *)
Example invalid_sql_is_reported : forall B : backend,
DatabasePlugin.execute_query B seeded "INVALID SQL QUERY"
= (seeded,
   Py.Returned
     ("Error executing query: Execution failed on sql 'INVALID SQL QUERY': near "
      +++ Text.dquote +++ "INVALID" +++ Text.dquote +++ ": syntax error")).
Proof. intro B. vm_compute. reflexivity. Qed.




(** The effect of DROP TABLE does not depend on the backend. *)
Lemma drop_table_on_any_backend : forall B : backend,
map fst (fst (DatabasePlugin.execute_query B seeded "DROP TABLE OrderDetails"))
= [ "Categories"; "Suppliers"; "Products"; "Customers"; "Employees";
    "Shippers"; "Orders"; "Region"; "Territories"; "EmployeeTerritories" ].
Proof. intro B. vm_compute. reflexivity. Qed.

(** *** Counting the categories *)

(** C7, as stated, fails: the loader names the table Categories, and the
  store has no table Category, so the query of the claim is answered
  with the error text. *)
Lemma count_from_Category_is_an_error :
lookup_table "Category" seeded = None /\
snd (DatabasePlugin.execute_query refusing_backend seeded
       "SELECT COUNT(*) FROM Category")
= Py.Returned
    "Error executing query: Execution failed on sql 'SELECT COUNT(*) FROM Category': no such table: Category".
Proof. split; vm_compute; reflexivity. Qed.

(** C7, as amended.  [SELECT COUNT( * ) FROM Categories] on the freshly
  seeded store succeeds: the statement yields one row with one column
  whose value is 5, the number of category rows the loader inserts; the
  returned text is the JSON of that row, does not begin with the error
  marker, and the file is left as it was. *)
Theorem count_from_Categories_is_five : forall B : backend,
prepare B "SELECT COUNT(*) FROM Categories" seeded
= Py.Returned (seeded, Some (ResultSet ["COUNT(*)"] [[VInt 5]])) /\
Z.of_nat (List.length categories) = 5%Z /\
DatabasePlugin.execute_query B seeded "SELECT COUNT(*) FROM Categories"
= (seeded,
   Py.Returned
     ("[" +++ Text.newline
      +++ "  {" +++ Text.newline
      +++ "    " +++ Text.dquote +++ "COUNT(*)" +++ Text.dquote +++ ":5"
      +++ Text.newline
      +++ "  }" +++ Text.newline
      +++ "]")) /\
Text.starts_with "Error"
  (match snd (DatabasePlugin.execute_query B seeded
                "SELECT COUNT(*) FROM Categories") with
   | Py.Returned text => text
   | Py.Raised e => Py.str e
   end)
= false.
Proof. intro B. repeat split; vm_compute; reflexivity. Qed.

(** *** Foreign keys of the seed rows *)

(** C6 fails on the code.  After the loader has run on an empty file,
  exactly one stored foreign-key value references no row: the order
  10249 names employee 6, and the loader inserts the employees 1 to 5.
  Every other foreign-key value of the seed rows names an existing
  key. *)
Theorem seeded_store_has_a_dangling_employee :
dangling seeded
= [ ("Orders", "EmployeeID",
     [VInt 10249; VText "BERGS"; VInt 6; VText "1996-07-05"; VInt 1;
      VText "Sweden"]) ] /\
map (cell 0) (rows_of "Employees" seeded)
= [VInt 1; VInt 2; VInt 3; VInt 4; VInt 5] /\
snd (setup_database empty_store) = Py.Returned tt.
Proof. repeat split; vm_compute; reflexivity. Qed.

(** *** Describing the products table *)

(** C8, as stated, fails: ProductID is declared INTEGER PRIMARY KEY
  without NOT NULL, SQLite reports its notnull flag as 0, and the code
  turns that into a nullable flag that is true. *)
Lemma ProductID_is_reported_nullable :
match DatabasePlugin.fetch_columns refusing_backend "Products" seeded with
| Py.Returned columns =>
    option_map DatabasePlugin.d_nullable
      (find (fun d => String.eqb (DatabasePlugin.d_column d) "ProductID")
            (DatabasePlugin.schema_info columns))
| Py.Raised _ => None
end = Some true.
Proof. vm_compute. reflexivity. Qed.

(** C8, as amended.  Describing the Products table of the seeded store
  returns the JSON of six descriptors, in the order of the declaration;
  among them are ProductID, ProductName, CategoryID and SupplierID.  The
  nullable flag of each is the negation of the NOT NULL clause of its
  declaration: false for ProductName, true for ProductID, CategoryID and
  SupplierID. *)
Theorem products_schema_descriptors : forall B : backend,
let info :=
  [ DatabasePlugin.Descriptor "ProductID" "INTEGER" true None;
    DatabasePlugin.Descriptor "ProductName" "TEXT" false None;
    DatabasePlugin.Descriptor "CategoryID" "INTEGER" true None;
    DatabasePlugin.Descriptor "SupplierID" "INTEGER" true None;
    DatabasePlugin.Descriptor "UnitPrice" "REAL" true None;
    DatabasePlugin.Descriptor "UnitsInStock" "INTEGER" true None ] in
DatabasePlugin.get_table_schema B seeded "Products"
= (seeded, Py.Returned (DatabasePlugin.dumps_schema info)) /\
option_map DatabasePlugin.schema_info (declared "Products") = Some info /\
map (fun d => (DatabasePlugin.d_column d, negb (DatabasePlugin.d_nullable d))) info
= map (fun c => (col_name c, col_notnull c))
      (match declared "Products" with Some cols => cols | None => [] end) /\
Text.starts_with "Error" (DatabasePlugin.dumps_schema info) = false.
Proof. intro B. repeat split; vm_compute; reflexivity. Qed.

(** *** Sales by category *)


(** *** Top products *)




Lemma top_products_sql_is_not_dml : forall limit : Z,
is_dml (AnalyticsPlugin.top_products_sql limit) = false.
Proof. intro limit. reflexivity. Qed.






(** The limits the claim singles out. *)
Example top_products_sample_limits :
option_map (fun rs => List.length (rs_rows rs))
  (match Query.top_products 0 seeded with Py.Returned rs => Some rs | _ => None end)
= Some 0%nat /\
option_map (fun rs => List.length (rs_rows rs))
  (match Query.top_products 2 seeded with Py.Returned rs => Some rs | _ => None end)
= Some 2%nat /\
option_map (fun rs => rs_rows rs)
  (match Query.top_products 11 seeded with Py.Returned rs => Some rs | _ => None end)
= Some seeded_top_rows /\
option_map (fun rs => rs_rows rs)
  (match Query.top_products Query.int64_max seeded with
   | Py.Returned rs => Some rs | _ => None end)
= Some seeded_top_rows.
Proof. repeat split; vm_compute; reflexivity. Qed.


(** *** Products without order lines *)

(** C4, as stated, fails: Gumbo Mix has no order line; its row is in the
  result, but SUM over no line is NULL, so both totals of the row are
  NULL, which is not zero, and the frame writes them as [null]. *)
Lemma product_without_lines_has_null_totals :
lines_of_product seeded
  [VInt 5; VText "Gumbo Mix"; VInt 2; VInt 2; REAL 21.35; VInt 0] = [] /\
match Query.top_products AnalyticsPlugin.default_limit seeded with
| Py.Returned rs =>
    filter (fun r => value_eqb (cell 0 r) (VText "Gumbo Mix")) (rs_rows rs)
| Py.Raised _ => []
end = [[VText "Gumbo Mix"; VText "Condiments"; VNull; VNull]] /\
value_eqb VNull (VInt 0) = false /\
value_eqb VNull (REAL 0) = false /\
Pandas.render_cell (Pandas.to_cell Pandas.DFloat VNull) = "null".
Proof. repeat split; vm_compute; reflexivity. Qed.

(** C4, as amended.  With the default limit, every seeded product that
  has no order line has exactly one row in the result of
  [get_top_products], and in that row both the total quantity sold and
  the total revenue are NULL. *)
Theorem products_without_lines_are_listed_with_null :
forall product : row,
  In product products ->
  lines_of_product seeded product = [] ->
  exists category : value,
    match Query.top_products AnalyticsPlugin.default_limit seeded with
    | Py.Returned rs =>
        filter (fun r => value_eqb (cell 0 r) (cell 1 product)) (rs_rows rs)
    | Py.Raised _ => []
    end = [[cell 1 product; category; VNull; VNull]].
Proof.
intros product Hin Hlines.
unfold products in Hin. simpl in Hin.
repeat (destruct Hin as [<-|Hin]);
  try (vm_compute in Hlines; discriminate Hlines);
  try (eexists; vm_compute; reflexivity).
contradiction.
Qed.

Lemma products_without_lines_are_listed_with_null_witness :
exists category : value,
  match Query.top_products AnalyticsPlugin.default_limit seeded with
  | Py.Returned rs =>
      filter (fun r => value_eqb (cell 0 r) (VText "Spegesild")) (rs_rows rs)
  | Py.Raised _ => []
  end = [[VText "Spegesild"; category; VNull; VNull]].
Proof.
apply (products_without_lines_are_listed_with_null
         [VInt 10; VText "Spegesild"; VInt 5; VInt 4; REAL 12.0; VInt 95]).
- unfold products. simpl. tauto.
- vm_compute. reflexivity.
Defined.

(** *** Describing a table that does not exist *)

Lemma word_char_is_not_blank : forall c : ascii,
is_word_char c = true -> is_blank c = false.
Proof.
intros [b0 b1 b2 b3 b4 b5 b6 b7].
destruct b0, b1, b2, b3, b4, b5, b6, b7; vm_compute; congruence.
Qed.

Lemma append_empty_right : forall s : string, s +++ EmptyString = s.
Proof. induction s as [|c s IH]; simpl; [reflexivity | rewrite IH; reflexivity]. Qed.

Lemma append_one_char : forall (cur : string) (c : ascii) (s : string),
(cur +++ String c EmptyString) +++ s = cur +++ String c s.
Proof.
induction cur as [|d cur IH]; intros c s; simpl; [reflexivity|].
rewrite IH. reflexivity.
Qed.

(** A run of word characters is one word. *)
Lemma split_blanks_of_word : forall (s cur : string),
all_chars is_word_char s = true ->
split_blanks s cur
= match cur +++ s with EmptyString => [] | w => [w] end.
Proof.
induction s as [|c s IH]; intros cur H; simpl.
- rewrite append_empty_right. destruct cur; reflexivity.
- simpl in H. apply andb_prop in H. destruct H as [Hc Hs].
  rewrite (word_char_is_not_blank c Hc).
  rewrite (IH _ Hs). rewrite append_one_char. reflexivity.
Qed.

Lemma identifier_is_one_word : forall w : string,
is_identifier w = true ->
all_chars (fun c => is_word_char c || is_blank c) w = true /\ words w = [w].
Proof.
intros w H. destruct w as [|c w]; [discriminate|].
unfold is_identifier in H. apply andb_prop in H. destruct H as [_ H].
split.
- clear -H. revert H. generalize (String c w). intro s.
  induction s as [|d s IH]; simpl; intro H; [reflexivity|].
  apply andb_prop in H. destruct H as [Hd Hs].
  rewrite Hd. simpl. apply IH. exact Hs.
- unfold words. rewrite (split_blanks_of_word _ _ H). reflexivity.
Qed.

(** C5, as amended.  For every table name that is a bare identifier
  (letters, digits and underscores, no digit first), that is not a
  reserved word and that the engine does not define itself: when the
  store has no table of that name, [get_table_schema] returns the JSON
  of the empty list, which is the text [[]], and not an error text; the
  store is left as it was. *)
Theorem unknown_table_has_empty_schema :
forall (B : backend) (db : Store) (table_name : string),
  is_identifier table_name = true ->
  is_reserved table_name = false ->
  builtin_table B table_name = false ->
  lookup_table table_name db = None ->
  DatabasePlugin.get_table_schema B db table_name = (db, Py.Returned "[]") /\
  DatabasePlugin.dumps_schema (DatabasePlugin.schema_info []) = "[]" /\
  Text.starts_with "Error" "[]" = false.
Proof.
intros B db table_name Hid Hres Hbuiltin Hnone.
split; [|split; reflexivity].
destruct (identifier_is_one_word _ Hid) as [Hchars Hwords].
unfold DatabasePlugin.get_table_schema, DatabasePlugin.fetch_columns,
  pragma_table_info.
rewrite Hchars, Hwords, Hid, Hres, Hnone, Hbuiltin.
reflexivity.
Qed.

Lemma unknown_table_has_empty_schema_witness :
DatabasePlugin.get_table_schema refusing_backend seeded "NonExistentTable"
= (seeded, Py.Returned "[]").
Proof.
apply (unknown_table_has_empty_schema refusing_backend seeded "NonExistentTable");
  vm_compute; reflexivity.
Defined.

(** C5, as stated, fails: the store has no table named [Order Details],
  and the text spliced into the pragma is not read as one name, so the
  statement is a syntax error and the call returns the error text. *)
Lemma unknown_name_with_a_blank_is_an_error :
lookup_table "Order Details" seeded = None /\
DatabasePlugin.get_table_schema refusing_backend seeded "Order Details"
= (seeded,
   Py.Returned
     ("Error getting schema: near " +++ Text.dquote +++ "Order"
      +++ Text.dquote +++ ": syntax error")) /\
Text.starts_with "Error"
  ("Error getting schema: near " +++ Text.dquote +++ "Order"
   +++ Text.dquote +++ ": syntax error") = true.
Proof. repeat split; vm_compute; reflexivity. Qed.

(** The same holds on every backend, and for two words of which none is
  reserved. *)
Lemma names_of_two_words_are_errors : forall (B : backend) (db : Store),
snd (DatabasePlugin.get_table_schema B db "Order Details")
= Py.Returned
    ("Error getting schema: near " +++ Text.dquote +++ "Order"
     +++ Text.dquote +++ ": syntax error") /\
snd (DatabasePlugin.get_table_schema B db "Missing Table")
= Py.Returned
    ("Error getting schema: near " +++ Text.dquote +++ "Table"
     +++ Text.dquote +++ ": syntax error").
Proof. intros B db. split; vm_compute; reflexivity. Qed.

(** *** The loader *)

Lemma ieqb_refl : forall a : string, Text.ieqb a a = true.
Proof. intro a. unfold Text.ieqb. apply String.eqb_refl. Qed.

Lemma ieqb_trans_true : forall a b c : string,
Text.ieqb a b = true -> Text.ieqb a c = Text.ieqb b c.
Proof.
unfold Text.ieqb. intros a b c H. apply String.eqb_eq in H. rewrite H.
reflexivity.
Qed.

Lemma lookup_ieqb : forall (a b : string) (s : Store),
Text.ieqb a b = true -> lookup_table a s = lookup_table b s.
Proof.
intros a b s H. induction s as [|[k t] s IH]; simpl; [reflexivity|].
unfold Text.ieqb in *. apply String.eqb_eq in H. rewrite H, IH. reflexivity.
Qed.

Lemma lookup_update : forall (n m : string) (f : table -> table) (s : Store),
lookup_table n (update_table m f s)
= if Text.ieqb m n then option_map f (lookup_table n s) else lookup_table n s.
Proof.
intros n m f s. induction s as [|[k t] s IH]; simpl.
- destruct (Text.ieqb m n); reflexivity.
- destruct (Text.ieqb k m) eqn:Ekm; simpl.
  + rewrite (ieqb_trans_true k m n Ekm).
    destruct (Text.ieqb m n); reflexivity.
  + rewrite IH. destruct (Text.ieqb k n) eqn:Ekn; [|reflexivity].
    destruct (Text.ieqb m n) eqn:Emn; [|reflexivity].
    exfalso. unfold Text.ieqb in *.
    apply String.eqb_eq in Ekn. apply String.eqb_eq in Emn.
    rewrite Ekn, <- Emn, String.eqb_refl in Ekm. discriminate.
Qed.

Lemma lookup_app_one : forall (n m : string) (t : table) (s : Store),
lookup_table n (s ++ [(m, t)])
= match lookup_table n s with
  | Some x => Some x
  | None => if Text.ieqb m n then Some t else None
  end.
Proof.
intros n m t s. induction s as [|[k u] s IH]; simpl; [reflexivity|].
destruct (Text.ieqb k n); [reflexivity | exact IH].
Qed.

Lemma grows_refl : forall s : Store, grows s s.
Proof.
intros s n t H. exists t. split; [exact H|]. split; [reflexivity|].
exists []. symmetry. apply app_nil_r.
Qed.

Lemma grows_trans : forall s1 s2 s3 : Store,
grows s1 s2 -> grows s2 s3 -> grows s1 s3.
Proof.
intros s1 s2 s3 H12 H23 n t H.
destruct (H12 n t H) as [t2 [L2 [C2 [x2 R2]]]].
destruct (H23 n t2 L2) as [t3 [L3 [C3 [x3 R3]]]].
exists t3. split; [exact L3|]. split; [congruence|].
exists (x2 ++ x3)%list. rewrite R3, R2. symmetry. apply app_assoc.
Qed.

Lemma grows_add_row : forall (name : string) (r : row) (s : Store),
grows s (update_table name (add_row r) s).
Proof.
intros name r s n t H. rewrite lookup_update, H.
destruct (Text.ieqb name n); simpl.
- eexists. split; [reflexivity|]. split; [reflexivity|]. exists [r]. reflexivity.
- exists t. split; [reflexivity|]. split; [reflexivity|].
  exists []. symmetry. apply app_nil_r.
Qed.

Lemma key_conflict_more_rows : forall cols rows extra r,
key_conflict cols rows r = true ->
key_conflict cols (rows ++ extra) r = true.
Proof.
unfold key_conflict. intros cols rows extra r H.
destruct (pk_positions cols); [discriminate|].
rewrite existsb_app, H. reflexivity.
Qed.

Lemma key_conflict_with_itself : forall cols rows r,
key_conflict cols [r] r = true ->
key_conflict cols (rows ++ [r]) r = true.
Proof.
unfold key_conflict. intros cols rows r H.
destruct (pk_positions cols); [discriminate|].
rewrite existsb_app, H. apply orb_true_r.
Qed.

Lemma settled_grows : forall e s s',
settled e s -> grows s s' -> settled e s'.
Proof.
intros e s s' [t [L [A C]]] G.
destruct (G _ _ L) as [t' [L' [C' [extra R']]]].
exists t'. split; [exact L'|]. rewrite C', R'. split; [exact A|].
apply orb_true_iff in C. apply orb_true_iff. destruct C as [C|C].
- left. exact C.
- right. apply key_conflict_more_rows. exact C.
Qed.


Lemma schema_ok_grows : forall s s', schema_ok s -> grows s s' -> schema_ok s'.
Proof.
intros s s' H G name cols D. destruct (H name cols D) as [t [L C]].
destruct (G _ _ L) as [t' [L' [C' _]]]. exists t'. split; [exact L'|congruence].
Qed.

(** One INSERT OR IGNORE of a sample row into a store with the declared
  tables returns, only adds rows, and leaves the row settled. *)
Lemma insert_sample_row : forall e s,
schema_ok s -> entry_ok e = true ->
exists s',
  insert_or_ignore (fst e) (snd e) s = Py.Returned s' /\
  grows s s' /\ settled e s'.
Proof.
intros e s Hok He. unfold entry_ok in He.
destruct (declared (fst e)) as [cols|] eqn:D; [|discriminate].
apply andb_prop in He. destruct He as [Harity Hself].
destruct (Hok _ _ D) as [t [L C]]. subst cols.
unfold insert_or_ignore. rewrite L, Harity.
destruct (notnull_violation (tbl_columns t) (snd e)
          || key_conflict (tbl_columns t) (tbl_rows t) (snd e)) eqn:Cond.
- exists s. split; [reflexivity|]. split; [apply grows_refl|].
  exists t. split; [exact L|]. split; [exact Harity|exact Cond].
- eexists. split; [reflexivity|]. split; [apply grows_add_row|].
  exists (add_row (snd e) t). split.
  + rewrite lookup_update, ieqb_refl, L. reflexivity.
  + split; [exact Harity|]. simpl.
    rewrite (key_conflict_with_itself _ _ _ Hself). apply orb_true_r.
Qed.

Lemma run_script_succeeds : forall es s,
schema_ok s -> forallb entry_ok es = true ->
exists s',
  run_script es s = (s', Py.Returned tt) /\
  grows s s' /\ (forall e, In e es -> settled e s').
Proof.
induction es as [|e es IH]; intros s Hok Hes.
- exists s. split; [reflexivity|]. split; [apply grows_refl|].
  intros e [].
- simpl in Hes. apply andb_prop in Hes. destruct Hes as [He Hes].
  destruct (insert_sample_row e s Hok He) as [s1 [R1 [G1 S1]]].
  destruct (IH s1 (schema_ok_grows _ _ Hok G1) Hes) as [s' [R' [G' S']]].
  exists s'. simpl. rewrite R1. split; [exact R'|].
  split; [exact (grows_trans _ _ _ G1 G')|].
  intros x [<-|Hx]; [exact (settled_grows _ _ _ S1 G') | exact (S' x Hx)].
Qed.


Lemma run_script_app : forall es1 es2 w,
run_script (es1 ++ es2) w
= match run_script es1 w with
  | (w', Py.Returned _) => run_script es2 w'
  | (w', Py.Raised x) => (w', Py.Raised x)
  end.
Proof.
induction es1 as [|e es1 IH]; intros es2 w; simpl; [reflexivity|].
destruct (insert_or_ignore (fst e) (snd e) w); [apply IH | reflexivity].
Qed.

Lemma run_many_is_a_script : forall name rows w,
run_many (insert_or_ignore name) rows w = run_script (map (pair name) rows) w.
Proof.
intros name rows. induction rows as [|r rows IH]; intro w; simpl; [reflexivity|].
destruct (insert_or_ignore name r w); [apply IH | reflexivity].
Qed.

(** [insert_sample_data] runs the script on the working copy and leaves
  the committed file alone. *)
Lemma insert_all_is_the_script : forall data c,
committed (fst (insert_all data c)) = committed c /\
working (fst (insert_all data c)) = fst (run_script (script data) (working c)) /\
snd (insert_all data c) = snd (run_script (script data) (working c)).
Proof.
induction data as [|[name rows] data IH]; intro c; simpl.
- repeat split; reflexivity.
- unfold executemany. rewrite run_many_is_a_script.
  change (script ((name, rows) :: data))
    with (map (pair name) rows ++ script data)%list.
  rewrite run_script_app.
  replace (working (begin_if true c)) with (working c)
    by (unfold begin_if; simpl; destruct (in_transaction c); reflexivity).
  replace (committed (begin_if true c)) with (committed c)
    by (unfold begin_if; simpl; destruct (in_transaction c); reflexivity).
  destruct (run_script (map (pair name) rows) (working c)) as [w [[]|x]].
  + destruct (IH (Connection (committed c) w true)) as [H1 [H2 H3]].
    simpl in *. repeat split; assumption.
  + simpl. repeat split; reflexivity.
Qed.

Lemma create_tables_is_create_all : forall ds s,
fold_left (fun c d => fst (execute false (create_statement d) c)) ds
          (Connection s s false)
= Connection (create_all ds s) (create_all ds s) false.
Proof.
induction ds as [|d ds IH]; intro s; [reflexivity|].
simpl. unfold create_all. simpl. apply IH.
Qed.

(** [setup_database] without the connection: the tables are created and
  kept; the sample rows are kept when every insert returned. *)
Lemma setup_database_unfolded : forall db,
setup_database db
= match run_script (script sample_data) (create_all tables db) with
  | (w, Py.Returned _) => (w, Py.Returned tt)
  | (_, Py.Raised x) => (create_all tables db, Py.Raised x)
  end.
Proof.
intro db. unfold setup_database, create_tables, insert_sample_data, connect.
rewrite create_tables_is_create_all.
generalize (create_all tables db). intro s0.
destruct (insert_all_is_the_script sample_data (Connection s0 s0 false))
  as [H1 [H2 H3]].
destruct (insert_all sample_data (Connection s0 s0 false)) as [c r].
cbn [fst snd committed working] in H1, H2, H3.
destruct (run_script (script sample_data) s0) as [w r'].
cbn [fst snd] in H2, H3. subst r' w.
destruct r as [[]|x]; unfold close, commit; cbn [committed working];
  [reflexivity|].
rewrite H1. reflexivity.
Qed.

Lemma lookup_create_all : forall ds s n,
lookup_table n (create_all ds s)
= match lookup_table n s with
  | Some t => Some t
  | None =>
      option_map (fun d => Table (fst (snd d)) (snd (snd d)) [])
                 (find (fun d => Text.ieqb (fst d) n) ds)
  end.
Proof.
induction ds as [|d ds IH]; intros s n.
- simpl. destruct (lookup_table n s); reflexivity.
- unfold create_all. simpl. fold (create_all ds).
  rewrite IH. unfold create_table_if_not_exists.
  destruct (lookup_table (fst d) s) as [t0|] eqn:Ld.
  + destruct (lookup_table n s) as [t|] eqn:Ln; [reflexivity|].
    destruct (Text.ieqb (fst d) n) eqn:E; [|reflexivity].
    rewrite (lookup_ieqb _ _ s E) in Ld. congruence.
  + rewrite lookup_app_one.
    destruct (lookup_table n s); [reflexivity|].
    destruct (Text.ieqb (fst d) n); reflexivity.
Qed.


(** The first table of [tables] that matches a declared name, whatever the
  case, is its own declaration. *)
Lemma declared_is_found : forall name cols,
declared name = Some cols ->
exists d,
  find (fun d => Text.ieqb (fst d) name) tables = Some d /\
  fst (snd d) = cols.
Proof.
intros name cols H. unfold declared, tables in H.
cbn [declared_in fst snd] in H.
repeat match type of H with
| (if String.eqb ?a name then _ else _) = _ =>
    destruct (String.eqb_spec a name) as [<-|_];
    [ injection H as <-; eexists; split; [vm_compute; reflexivity | reflexivity]
    | ]
end.
discriminate.
Qed.


Lemma create_all_gives_the_schema : forall db,
conforms db -> schema_ok (create_all tables db).
Proof.
intros db Hc name cols D. rewrite lookup_create_all.
destruct (lookup_table name db) as [t|] eqn:L.
- exists t. split; [reflexivity|]. exact (Hc name cols t D L).
- destruct (declared_is_found name cols D) as [d [F C]].
  rewrite F. simpl. eexists. split; [reflexivity|]. exact C.
Qed.

Lemma sample_rows_are_ok : forallb entry_ok (script sample_data) = true.
Proof. vm_compute. reflexivity. Qed.




(** The row counts after one start and after two, on a new file. *)
Example row_counts_after_one_and_two_runs :
row_counts seeded
= map Some [5; 5; 10; 5; 5; 3; 3; 4; 0; 0; 0]%nat /\
row_counts (fst (setup_database seeded)) = row_counts seeded /\
setup_database seeded = (seeded, Py.Returned tt).
Proof. repeat split; vm_compute; reflexivity. Qed.

(** After the first start the table listing names the eleven tables, in
    the order of their creation. *)
Example list_tables_on_seeded_store :
  DatabasePlugin.select_table_names seeded = Py.Returned table_names /\
  List.length table_names = 11%nat /\
  DatabasePlugin.list_tables seeded
  = (seeded, Py.Returned (Json.dumps_strings table_names)).
Proof. repeat split; vm_compute; reflexivity. Qed.

(* ================================================================== *)
(* Further properties of the code                                      *)
(* ================================================================== *)

Import Keys.

(** *** Order and truncation of the analytics rows, on every store *)

Lemma value_compare_antisym : forall a b : value,
  Query.value_compare b a = CompOpp (Query.value_compare a b).
Proof.
  intros a b. destruct a, b; simpl; try reflexivity;
    try (symmetry; apply Qcompare_antisym); apply String.compare_antisym.
Qed.

Lemma descending_cons : forall (i : nat) (y : row) (l : list row),
  descending i (y :: l)
  = match l with
    | [] => true
    | z :: _ =>
        match Query.value_compare (cell i y) (cell i z) with
        | Lt => false
        | _ => true
        end
    end && descending i l.
Proof. intros i y l. reflexivity. Qed.

Lemma insert_desc_head : forall (i : nat) (x y : row) (l : list row),
  Query.value_compare (cell i y) (cell i x) <> Lt ->
  match l with
  | [] => true
  | z :: _ =>
      match Query.value_compare (cell i y) (cell i z) with
      | Lt => false
      | _ => true
      end
  end = true ->
  match Query.insert_desc i x l with
  | [] => true
  | z :: _ =>
      match Query.value_compare (cell i y) (cell i z) with
      | Lt => false
      | _ => true
      end
  end = true.
Proof.
  intros i x y l Hyx Hl. destruct l as [|z l']; simpl.
  - destruct (Query.value_compare (cell i y) (cell i x)); congruence.
  - destruct (Query.value_compare (cell i x) (cell i z)); simpl;
      try exact Hl;
      destruct (Query.value_compare (cell i y) (cell i x)); congruence.
Qed.

Lemma insert_desc_descending : forall (i : nat) (x : row) (l : list row),
  descending i l = true -> descending i (Query.insert_desc i x l) = true.
Proof.
  intros i x. induction l as [|y l IH]; intro H; [reflexivity|].
  rewrite descending_cons in H. apply andb_prop in H. destruct H as [H1 H2].
  simpl Query.insert_desc.
  destruct (Query.value_compare (cell i x) (cell i y)) eqn:E.
  - rewrite descending_cons. rewrite (IH H2), andb_true_r.
    apply insert_desc_head; [|exact H1].
    rewrite value_compare_antisym, E. discriminate.
  - rewrite descending_cons. rewrite (IH H2), andb_true_r.
    apply insert_desc_head; [|exact H1].
    rewrite value_compare_antisym, E. discriminate.
  - rewrite descending_cons, E. rewrite descending_cons, H1, H2. reflexivity.
Qed.

Lemma sort_desc_descending : forall (i : nat) (l : list row),
  descending i (Query.sort_desc i l) = true.
Proof.
  intros i l. unfold Query.sort_desc.
  assert (G : forall acc, descending i acc = true ->
              descending i (fold_left (fun acc x => Query.insert_desc i x acc) l acc)
              = true).
  { induction l as [|x l IH]; intros acc H; [exact H|].
    simpl. apply IH. apply insert_desc_descending. exact H. }
  apply G. reflexivity.
Qed.

Lemma firstn_descending : forall (i k : nat) (rows : list row),
  descending i rows = true -> descending i (firstn k rows) = true.
Proof.
  intro i. induction k as [|k IH]; intros rows H; [reflexivity|].
  destruct rows as [|r1 rest]; [reflexivity|].
  rewrite descending_cons in H. apply andb_prop in H. destruct H as [H1 H2].
  simpl firstn. rewrite descending_cons, (IH _ H2), andb_true_r.
  destruct rest as [|r2 rest']; [destruct k; reflexivity|].
  destruct k; [reflexivity | exact H1].
Qed.

Lemma top_products_rows_descending : forall n rows,
  Query.top_products_rows n = Py.Returned rows -> descending 3 rows = true.
Proof.
  intros n rows H. unfold Query.top_products_rows in H.
  match type of H with
  | Py.bind ?r _ = _ => destruct r as [rs|e]; [|discriminate H]
  end.
  cbn [Py.bind] in H. injection H as <-. apply sort_desc_descending.
Qed.

(** X1.  On every store and for every limit, when the query of
    [get_top_products] returns, its rows are in descending order of the
    total revenue (NULL revenues last). *)
Theorem top_products_rows_are_descending :
  forall (db : Store) (limit : Z) (rs : result_set),
    Query.top_products limit db = Py.Returned rs ->
    descending 3 (rs_rows rs) = true.
Proof.
  intros db limit rs H. unfold Query.top_products in H.
  destruct (Query.top_products_names db) as [n|e]; [|discriminate H].
  cbn [Py.bind] in H.
  destruct (Query.limit_clause limit) as [lim|e]; [|discriminate H].
  cbn [Py.bind] in H.
  destruct lim as [[|k]|].
  - injection H as <-. reflexivity.
  - destruct (Query.top_products_rows n) as [rows|e] eqn:R; [|discriminate H].
    cbn [Py.bind] in H. injection H as <-. cbn [rs_rows].
    exact (firstn_descending 3 (S k) rows (top_products_rows_descending _ _ R)).
  - destruct (Query.top_products_rows n) as [rows|e] eqn:R; [|discriminate H].
    cbn [Py.bind] in H. injection H as <-. cbn [rs_rows Query.apply_limit].
    exact (top_products_rows_descending _ _ R).
Qed.

Lemma top_products_rows_are_descending_witness :
  descending 3 seeded_top_rows = true.
Proof.
  apply (top_products_rows_are_descending seeded 10
           (ResultSet Query.top_products_columns seeded_top_rows)).
  vm_compute. reflexivity.
Defined.

(** X2.  On every store, when the query of [analyze_sales_by_category]
    returns, its rows are in descending order of the total revenue. *)
Theorem sales_rows_are_descending :
  forall (db : Store) (rs : result_set),
    Query.sales_by_category db = Py.Returned rs ->
    descending 3 (rs_rows rs) = true.
Proof.
  intros db rs H. unfold Query.sales_by_category in H.
  repeat match type of H with
  | Py.bind ?r _ = _ =>
      destruct r; [cbn [Py.bind] in H | discriminate H]
  end.
  injection H as <-. cbn [rs_rows]. apply sort_desc_descending.
Qed.

Lemma sales_rows_are_descending_witness :
  descending 3
    [ [VText "Beverages"; VInt 2; VInt 22; REAL 406; REAL 203];
      [VText "Condiments"; VInt 2; VInt 20; REAL 330.5; REAL 165.25] ] = true.
Proof.
  apply (sales_rows_are_descending seeded
           (ResultSet
              ["CategoryName"; "TotalOrders"; "TotalQuantity"; "TotalRevenue";
               "AvgOrderValue"]
              [ [VText "Beverages"; VInt 2; VInt 22; REAL 406; REAL 203];
                [VText "Condiments"; VInt 2; VInt 20; REAL 330.5; REAL 165.25] ])).
  vm_compute. reflexivity.
Defined.

Lemma limit_clause_negative : forall k : Z,
  (Query.int64_min <= k < 0)%Z -> Query.limit_clause k = Py.Returned None.
Proof.
  intros k [H1 H2]. unfold Query.limit_clause, Query.in_int64.
  replace (Query.int64_min <=? k)%Z with true by (symmetry; apply Z.leb_le; exact H1).
  replace (k <=? Query.int64_max)%Z with true
    by (symmetry; apply Z.leb_le; unfold Query.int64_max; lia).
  replace (k <? 0)%Z with true by (symmetry; apply Z.ltb_lt; exact H2).
  reflexivity.
Qed.

Lemma limit_clause_in_range : forall k : Z,
  (0 <= k <= Query.int64_max)%Z ->
  Query.limit_clause k = Py.Returned (Some (Z.to_nat k)).
Proof.
  intros k [H1 H2]. unfold Query.limit_clause, Query.in_int64.
  replace (Query.int64_min <=? k)%Z with true
    by (symmetry; apply Z.leb_le; unfold Query.int64_min; lia).
  replace (k <=? Query.int64_max)%Z with true by (symmetry; apply Z.leb_le; exact H2).
  replace (k <? 0)%Z with false by (symmetry; apply Z.ltb_ge; exact H1).
  reflexivity.
Qed.


(** X3.  On every store a negative limit (down to -2^63) means no limit,
    and a limit from 0 to 2^63 - 1 yields the first [limit] rows of that
    unlimited result: never more than [limit] rows, and always a prefix of
    what a larger limit yields. *)
Theorem limit_takes_a_prefix :
  forall (db : Store) (k k' : Z) (rs : result_set),
    (Query.int64_min <= k < 0)%Z ->
    (0 <= k' <= Query.int64_max)%Z ->
    Query.top_products k db = Py.Returned rs ->
    Query.top_products k' db
    = Py.Returned
        (ResultSet Query.top_products_columns
           (firstn (Z.to_nat k') (rs_rows rs))) /\
    (List.length (firstn (Z.to_nat k') (rs_rows rs)) <= Z.to_nat k')%nat.
Proof.
  intros db k k' rs Hk Hk' H. split; [|apply firstn_le_length].
  unfold Query.top_products in *.
  destruct (Query.top_products_names db) as [n|e]; [|discriminate H].
  cbn [Py.bind] in *.
  rewrite (limit_clause_negative k Hk) in H.
  rewrite (limit_clause_in_range k' Hk').
  cbn [Py.bind] in *.
  destruct (Query.top_products_rows n) as [rows|e]; [|discriminate H].
  cbn [Py.bind] in *. injection H as <-. cbn [rs_rows Query.apply_limit].
  destruct (Z.to_nat k'); reflexivity.
Qed.

Lemma limit_takes_a_prefix_witness :
  Query.top_products 2 seeded
  = Py.Returned
      (ResultSet Query.top_products_columns (firstn (Z.to_nat 2) seeded_top_rows)).
Proof.
  apply (limit_takes_a_prefix seeded (-1) 2
           (ResultSet Query.top_products_columns seeded_top_rows)).
  - vm_compute. split; [discriminate | reflexivity].
  - vm_compute. split; discriminate.
  - vm_compute. reflexivity.
Defined.

(** What [get_top_products] returns, in terms of its query. *)
Lemma get_top_products_unfolded : forall (db : Store) (limit : option Z),
  let l := match limit with Some n => n | None => AnalyticsPlugin.default_limit end in
  AnalyticsPlugin.get_top_products db limit
  = (db,
     Py.Returned
       match Query.top_products l db with
       | Py.Raised e =>
           "Error getting top products: Execution failed on sql '"
           +++ AnalyticsPlugin.top_products_sql l +++ "': " +++ Py.str e
       | Py.Returned rs =>
           match Pandas.fetchall rs with
           | Py.Raised e => "Error getting top products: " +++ Py.str e
           | Py.Returned _ =>
               match Pandas.to_json (Pandas.wrap_result rs) with
               | Py.Raised e => "Error getting top products: " +++ Py.str e
               | Py.Returned text => text
               end
           end
       end).
Proof.
  intros db limit l.
  unfold AnalyticsPlugin.get_top_products, Pandas.read_sql_query, execute.
  fold l. rewrite top_products_sql_is_not_dml.
  unfold begin_if, connect, AnalyticsPlugin.run_select.
  cbn [andb negb in_transaction working committed].
  destruct (Query.top_products l db) as [rs|e]; cbn [Py.bind].
  - destruct (Pandas.fetchall rs); [|reflexivity].
    destruct (Pandas.to_json (Pandas.wrap_result rs)); reflexivity.
  - reflexivity.
Qed.

Lemma sales_sql_is_not_dml : is_dml AnalyticsPlugin.sales_sql = false.
Proof. reflexivity. Qed.

Lemma analyze_sales_unfolded : forall db : Store,
  AnalyticsPlugin.analyze_sales_by_category db
  = (db,
     Py.Returned
       match Query.sales_by_category db with
       | Py.Raised e =>
           "Error analyzing sales: Execution failed on sql '"
           +++ AnalyticsPlugin.sales_sql +++ "': " +++ Py.str e
       | Py.Returned rs =>
           match Pandas.fetchall rs with
           | Py.Raised e => "Error analyzing sales: " +++ Py.str e
           | Py.Returned _ =>
               match Pandas.to_json (Pandas.wrap_result rs) with
               | Py.Raised e => "Error analyzing sales: " +++ Py.str e
               | Py.Returned text => text
               end
           end
       end).
Proof.
  intro db.
  unfold AnalyticsPlugin.analyze_sales_by_category, Pandas.read_sql_query, execute.
  rewrite sales_sql_is_not_dml.
  unfold begin_if, connect, AnalyticsPlugin.run_select.
  cbn [andb negb in_transaction working committed].
  destruct (Query.sales_by_category db) as [rs|e]; cbn [Py.bind].
  - destruct (Pandas.fetchall rs); [|reflexivity].
    destruct (Pandas.to_json (Pandas.wrap_result rs)); reflexivity.
  - reflexivity.
Qed.



(** X5.  Neither analytics function ever changes the store, whatever the
    store and the limit, whether the query returns or raises. *)
Theorem analytics_leave_the_store :
  forall (db : Store) (limit : option Z),
    fst (AnalyticsPlugin.get_top_products db limit) = db /\
    fst (AnalyticsPlugin.analyze_sales_by_category db) = db.
Proof.
  intros db limit. rewrite get_top_products_unfolded, analyze_sales_unfolded.
  split; reflexivity.
Qed.



(** *** Statements on a named table, for every table *)

Lemma word_char_is_printable : forall c : ascii,
  is_word_char c = true -> is_printable c = true.
Proof.
  intros [b0 b1 b2 b3 b4 b5 b6 b7].
  destruct b0, b1, b2, b3, b4, b5, b6, b7; vm_compute; congruence.
Qed.

Lemma name_is_one_printable_word : forall w : string,
  is_name w = true ->
  is_identifier w = true /\
  all_chars is_printable w = true /\
  split_blanks w EmptyString = [w].
Proof.
  intros w H. unfold is_name in H. apply andb_prop in H. destruct H as [Hid _].
  split; [exact Hid|].
  destruct (identifier_is_one_word w Hid) as [_ Hw]. split; [|exact Hw].
  destruct w as [|c w]; [discriminate|].
  unfold is_identifier in Hid. apply andb_prop in Hid. destruct Hid as [_ H].
  revert H. generalize (String c w). intro s.
  induction s as [|d s IH]; simpl; intro H; [reflexivity|].
  apply andb_prop in H. destruct H as [Hd Hs].
  rewrite (word_char_is_printable d Hd). simpl. apply IH. exact Hs.
Qed.

(** X7.  Counting the rows of any table of the store through
    [execute_query] returns the JSON of one record whose value is the
    number of rows of that table, and leaves the store as it was. *)
Theorem count_of_any_table :
  forall (B : backend) (db : Store) (name : string) (t : table),
    is_name name = true ->
    lookup_table name db = Some t ->
    DatabasePlugin.execute_query B db ("SELECT COUNT(*) FROM " +++ name)
    = (db,
       Py.Returned
         ("[" +++ Text.newline
          +++ ("  {" +++ Text.newline
               +++ ("    " +++ Text.dquote +++ "COUNT(*)" +++ Text.dquote +++ ":"
                    +++ Text.of_Z (Z.of_nat (List.length (tbl_rows t))))
               +++ Text.newline +++ "  }")
          +++ Text.newline +++ "]")).
Proof.
  intros B db name t Hname Hlook.
  destruct (name_is_one_printable_word name Hname) as [Hid [Hprint Hword]].
  assert (Hprep : prepare B ("SELECT COUNT(*) FROM " +++ name) db
                  = Py.Returned
                      (db, Some (ResultSet ["COUNT(*)"]
                                   [[VInt (Z.of_nat (List.length (tbl_rows t)))]]))).
  { unfold prepare.
    change (all_chars is_printable ("SELECT COUNT(*) FROM " +++ name))
      with (all_chars is_printable name).
    rewrite Hprint.
    change (words ("SELECT COUNT(*) FROM " +++ name))
      with ("SELECT" :: "COUNT(*)" :: "FROM" :: split_blanks name EmptyString).
    rewrite Hword.
    change (is_identifier "SELECT" && negb (is_starter "SELECT")) with false.
    cbv iota.
    change (String.eqb (Text.lower "SELECT") "select"
            && String.eqb (Text.lower "COUNT(*)") "count(*)"
            && String.eqb (Text.lower "FROM") "from") with true.
    rewrite Hname. cbn [andb].
    unfold on_table, select_count. rewrite Hlook. reflexivity. }
  unfold DatabasePlugin.execute_query, Pandas.read_sql_query, execute.
  change (is_dml ("SELECT COUNT(*) FROM " +++ name)) with false.
  unfold begin_if, connect. cbn [andb negb in_transaction working committed].
  rewrite Hprep. reflexivity.
Qed.

Lemma count_of_any_table_witness :
  DatabasePlugin.execute_query refusing_backend seeded
    ("SELECT COUNT(*) FROM " +++ "Orders")
  = (seeded,
     Py.Returned
       ("[" +++ Text.newline
        +++ ("  {" +++ Text.newline
             +++ ("    " +++ Text.dquote +++ "COUNT(*)" +++ Text.dquote +++ ":"
                  +++ Text.of_Z 3)
             +++ Text.newline +++ "  }")
        +++ Text.newline +++ "]")).
Proof.
  apply (count_of_any_table refusing_backend seeded "Orders"
           (Table (match declared "Orders" with Some c => c | None => [] end)
                  [ ForeignKey "CustomerID" "Customers" "CustomerID";
                    ForeignKey "EmployeeID" "Employees" "EmployeeID";
                    ForeignKey "ShipperID" "Shippers" "ShipperID" ]
                  orders)).
  - vm_compute. reflexivity.
  - vm_compute. reflexivity.
Defined.





Lemma schema_of_existing_table :
  forall (B : backend) (db : Store) (w : string) (t : table),
    is_identifier w = true ->
    is_reserved w = false ->
    lookup_table w db = Some t ->
    forallb DatabasePlugin.column_text_ok (tbl_columns t) = true ->
    DatabasePlugin.get_table_schema B db w
    = (db, Py.Returned
             (DatabasePlugin.dumps_schema
                (DatabasePlugin.schema_info (tbl_columns t)))).
Proof.
  intros B db w t Hw Hres Hlook Htext.
  destruct (identifier_is_one_word w Hw) as [Hchars Hwords].
  unfold DatabasePlugin.get_table_schema, DatabasePlugin.fetch_columns,
    pragma_table_info.
  rewrite Hchars, Hwords, Hw, Hres, Hlook. cbn [Py.bind].
  rewrite Htext. reflexivity.
Qed.

(** X10.  Table names are matched without regard to ASCII case.  For two
    bare identifiers that differ in case only and are not reserved words,
    when the first names a table of the store whose column texts decode,
    [get_table_schema] returns for both the same text: the JSON of one
    descriptor per column of that table, in the order of the columns, and
    the store is left as it was. *)
Theorem schema_of_a_table_in_any_case :
  forall (B : backend) (db : Store) (a b : string) (t : table),
    is_identifier a = true ->
    is_identifier b = true ->
    Text.ieqb a b = true ->
    is_reserved a = false ->
    lookup_table a db = Some t ->
    forallb DatabasePlugin.column_text_ok (tbl_columns t) = true ->
    DatabasePlugin.get_table_schema B db a
    = (db, Py.Returned
             (DatabasePlugin.dumps_schema
                (DatabasePlugin.schema_info (tbl_columns t)))) /\
    DatabasePlugin.get_table_schema B db b
    = DatabasePlugin.get_table_schema B db a /\
    List.length (DatabasePlugin.schema_info (tbl_columns t))
    = List.length (tbl_columns t).
Proof.
  intros B db a b t Ha Hb Hab Hres Hlook Htext.
  assert (G : forall w, is_identifier w = true -> Text.ieqb a w = true ->
              DatabasePlugin.get_table_schema B db w
              = (db, Py.Returned
                       (DatabasePlugin.dumps_schema
                          (DatabasePlugin.schema_info (tbl_columns t))))).
  { intros w Hw Haw.
    apply schema_of_existing_table; [exact Hw | | | exact Htext].
    - unfold is_reserved in *. unfold Text.ieqb in Haw.
      apply String.eqb_eq in Haw. rewrite <- Haw. exact Hres.
    - rewrite <- (lookup_ieqb a w db Haw). exact Hlook. }
  split; [apply G; [exact Ha | apply ieqb_refl]|].
  split.
  - rewrite (G b Hb Hab). symmetry. apply G; [exact Ha | apply ieqb_refl].
  - unfold DatabasePlugin.schema_info. apply length_map.
Qed.

Lemma schema_of_a_table_in_any_case_witness :
  DatabasePlugin.get_table_schema refusing_backend seeded "products"
  = DatabasePlugin.get_table_schema refusing_backend seeded "Products".
Proof.
  apply (schema_of_a_table_in_any_case refusing_backend seeded
           "Products" "products"
           (Table (match declared "Products" with Some c => c | None => [] end)
                  [ ForeignKey "CategoryID" "Categories" "CategoryID";
                    ForeignKey "SupplierID" "Suppliers" "SupplierID" ]
                  products));
    vm_compute; reflexivity.
Defined.

(** *** The loader on every store *)

Lemma insert_grows : forall name r s s',
  insert_or_ignore name r s = Py.Returned s' -> grows s s'.
Proof.
  intros name r s s' H. unfold insert_or_ignore in H.
  destruct (lookup_table name s) as [t|]; [|discriminate H].
  destruct (Nat.eqb (List.length r) (List.length (tbl_columns t)));
    [|discriminate H].
  destruct (notnull_violation (tbl_columns t) r
            || key_conflict (tbl_columns t) (tbl_rows t) r);
    injection H as <-; [apply grows_refl | apply grows_add_row].
Qed.

Lemma run_script_grows : forall es s, grows s (fst (run_script es s)).
Proof.
  induction es as [|e es IH]; intro s; [apply grows_refl|].
  simpl. destruct (insert_or_ignore (fst e) (snd e) s) as [s'|x] eqn:E.
  - exact (grows_trans _ _ _ (insert_grows _ _ _ _ E) (IH s')).
  - apply grows_refl.
Qed.


Lemma setup_database_store : forall db,
  fst (setup_database db) = create_all tables db \/
  fst (setup_database db)
  = fst (run_script (script sample_data) (create_all tables db)).
Proof.
  intro db. rewrite setup_database_unfolded.
  destruct (run_script (script sample_data) (create_all tables db))
    as [w [[]|x]]; [right | left]; reflexivity.
Qed.


Lemma created_tables_exist : forall db d,
  In d tables -> exists t, lookup_table (fst d) (create_all tables db) = Some t.
Proof.
  intros db d Hd. rewrite lookup_create_all.
  destruct (lookup_table (fst d) db) as [t|]; [exists t; reflexivity|].
  destruct (find (fun d0 => Text.ieqb (fst d0) (fst d)) tables) as [d0|] eqn:F.
  - eexists. reflexivity.
  - pose proof (find_none _ _ F d Hd) as N. simpl in N.
    rewrite ieqb_refl in N. discriminate N.
Qed.

(** X12.  After [setup_database] each of the eleven tables exists, on
    every store and also when the call raises: the CREATE statements are
    kept by SQLite before the first row is inserted. *)
Theorem eleven_tables_after_any_run : forall db : Store,
  List.length (row_counts (fst (setup_database db))) = 11%nat /\
  forallb is_some (row_counts (fst (setup_database db))) = true.
Proof.
  intro db. split; [reflexivity|].
  unfold row_counts. apply forallb_forall.
  intros c Hc. apply in_map_iff in Hc. destruct Hc as [name [<- Hin]].
  unfold table_names in Hin. apply in_map_iff in Hin.
  destruct Hin as [d [<- Hd]].
  destruct (created_tables_exist db d Hd) as [t L].
  assert (G : grows (create_all tables db) (fst (setup_database db))).
  { destruct (setup_database_store db) as [E|E]; rewrite E;
      [apply grows_refl | apply run_script_grows]. }
  destruct (G _ _ L) as [t' [L' _]].
  unfold row_count. rewrite L'. reflexivity.
Qed.

(** X13.  The sample rows are inserted all or not at all.  When
    [setup_database] raises, no row of the call is kept: every table that
    existed holds exactly the rows it held, and every table the call
    created is empty. *)
Theorem failed_loader_inserts_nothing :
  forall (db : Store) (e : Py.exn),
    snd (setup_database db) = Py.Raised e ->
    fst (setup_database db) = create_all tables db /\
    forall name : string,
      lookup_table name (fst (setup_database db))
      = match lookup_table name db with
        | Some t => Some t
        | None =>
            option_map (fun d => Table (fst (snd d)) (snd (snd d)) [])
                       (find (fun d => Text.ieqb (fst d) name) tables)
        end.
Proof.
  intros db e H.
  assert (E : fst (setup_database db) = create_all tables db).
  { rewrite setup_database_unfolded in *.
    destruct (run_script (script sample_data) (create_all tables db))
      as [w [[]|x]]; [discriminate H | reflexivity]. }
  split; [exact E|]. intro name. rewrite E. apply lookup_create_all.
Qed.

Lemma failed_loader_inserts_nothing_witness :
  snd (setup_database store_with_other_suppliers)
  = Py.Raised
      (Py.Exn Py.OperationalError
         "table Suppliers has 1 columns but 4 values were supplied") /\
  row_counts (fst (setup_database store_with_other_suppliers))
  = map Some [0; 1; 0; 0; 0; 0; 0; 0; 0; 0; 0]%nat.
Proof.
  split; [vm_compute; reflexivity|].
  rewrite (proj1 (failed_loader_inserts_nothing store_with_other_suppliers
                    (Py.Exn Py.OperationalError
                       "table Suppliers has 1 columns but 4 values were supplied")
                    ltac:(vm_compute; reflexivity))).
  vm_compute. reflexivity.
Defined.

Lemma loader_returns_on_conforming_store : forall db,
  conforms db ->
  exists once,
    setup_database db = (once, Py.Returned tt) /\
    schema_ok once /\
    forall e, In e (script sample_data) -> settled e once.
Proof.
  intros db Hc.
  pose proof (create_all_gives_the_schema db Hc) as Hok0.
  destruct (run_script_succeeds _ _ Hok0 sample_rows_are_ok)
    as [once [Hrun [Hgrow Hsettled]]].
  exists once. split; [rewrite setup_database_unfolded, Hrun; reflexivity|].
  split; [exact (schema_ok_grows _ _ Hok0 Hgrow) | exact Hsettled].
Qed.

Lemma sample_rows_have_no_null :
  forallb (fun e => match declared (fst e) with
                    | Some cols => negb (notnull_violation cols (snd e))
                    | None => false
                    end)
          (script sample_data) = true.
Proof. vm_compute. reflexivity. Qed.

(** X14.  After the loader has run on a store of this program, every
    sample row is represented: its table holds a row with the primary key
    of the sample row (the sample row itself, or a row that was there
    before with that key, which the loader does not overwrite). *)
Theorem sample_keys_are_stored :
  forall (db : Store) (name : string) (rows : list row) (r : row),
    conforms db ->
    In (name, rows) sample_data ->
    In r rows ->
    snd (setup_database db) = Py.Returned tt /\
    exists t : table,
      lookup_table name (fst (setup_database db)) = Some t /\
      declared name = Some (tbl_columns t) /\
      key_conflict (tbl_columns t) (tbl_rows t) r = true.
Proof.
  intros db name rows r Hc Hdata Hr.
  destruct (loader_returns_on_conforming_store db Hc) as [once [Hrun [Hok Hset]]].
  rewrite Hrun. split; [reflexivity|]. cbn [fst].
  assert (Hin : In (name, r) (script sample_data)).
  { unfold script. apply in_flat_map. exists (name, rows).
    split; [exact Hdata|]. cbn [fst snd]. apply in_map. exact Hr. }
  destruct (Hset _ Hin) as [t [L [_ C]]]. cbn [fst snd] in L, C.
  pose proof sample_rows_have_no_null as N.
  rewrite forallb_forall in N. specialize (N _ Hin). cbn [fst snd] in N.
  destruct (declared name) as [cols|] eqn:D; [|discriminate N].
  destruct (Hok _ _ D) as [t' [L' C']].
  rewrite L in L'. injection L' as <-. subst cols.
  exists t. split; [exact L|]. split; [reflexivity|].
  apply negb_true_iff in N. rewrite N in C. exact C.
Qed.

Lemma sample_keys_are_stored_witness :
  exists t : table,
    lookup_table "Orders" (fst (setup_database empty_store)) = Some t /\
    declared "Orders" = Some (tbl_columns t) /\
    key_conflict (tbl_columns t) (tbl_rows t)
      [VInt 10250; VText "BLAUS"; VInt 4; VText "1996-07-08"; VInt 2;
       VText "Germany"] = true.
Proof.
  apply (sample_keys_are_stored empty_store "Orders" orders
           [VInt 10250; VText "BLAUS"; VInt 4; VText "1996-07-08"; VInt 2;
            VText "Germany"]).
  - intros n cols t _ H. discriminate H.
  - unfold sample_data. simpl. tauto.
  - unfold orders. simpl. tauto.
Defined.

(** *** Primary keys stay unique *)

Lemma value_eqb_sym : forall a b : value, value_eqb a b = value_eqb b a.
Proof.
  intros a b. destruct a, b; simpl; try reflexivity.
  - apply Z.eqb_sym.
  - apply Qeq_bool_comm.
  - apply Qeq_bool_comm.
  - apply Qeq_bool_comm.
  - apply String.eqb_sym.
Qed.

Lemma same_key_sym : forall pks r1 r2, same_key pks r1 r2 = same_key pks r2 r1.
Proof.
  intros pks r1 r2. unfold same_key.
  induction pks as [|i pks IH]; simpl; [reflexivity|].
  rewrite IH, value_eqb_sym. reflexivity.
Qed.

Lemma distinct_keys_snoc : forall pks rows r,
  distinct_keys pks rows = true ->
  existsb (same_key pks r) rows = false ->
  distinct_keys pks (rows ++ [r]) = true.
Proof.
  intros pks rows r. induction rows as [|x rows IH]; intros H E; [reflexivity|].
  simpl in *. apply andb_prop in H. destruct H as [H1 H2].
  apply orb_false_iff in E. destruct E as [E1 E2].
  rewrite (IH H2 E2), andb_true_r.
  rewrite existsb_app. simpl. rewrite same_key_sym, E1.
  apply negb_true_iff in H1. rewrite H1. reflexivity.
Qed.

Lemma insert_keeps_keys_unique : forall name r s s',
  all_keys_unique s ->
  insert_or_ignore name r s = Py.Returned s' ->
  all_keys_unique s'.
Proof.
  intros name r s s' U H. unfold insert_or_ignore in H.
  destruct (lookup_table name s) as [t|] eqn:L; [|discriminate H].
  destruct (Nat.eqb (List.length r) (List.length (tbl_columns t)));
    [|discriminate H].
  destruct (notnull_violation (tbl_columns t) r
            || key_conflict (tbl_columns t) (tbl_rows t) r) eqn:C;
    injection H as <-; [exact U|].
  intros n t' L'. rewrite lookup_update in L'.
  destruct (Text.ieqb name n) eqn:E; [|exact (U n t' L')].
  rewrite <- (lookup_ieqb name n s E), L in L'. simpl in L'.
  injection L' as <-.
  apply orb_false_iff in C. destruct C as [_ C].
  pose proof (U name t L) as Ut.
  unfold keys_unique, key_conflict, add_row in *. simpl.
  destruct (pk_positions (tbl_columns t)) as [|p ps]; [reflexivity|].
  apply distinct_keys_snoc; assumption.
Qed.

Lemma run_script_keeps_keys_unique : forall es s,
  all_keys_unique s -> all_keys_unique (fst (run_script es s)).
Proof.
  induction es as [|e es IH]; intros s U; [exact U|].
  simpl. destruct (insert_or_ignore (fst e) (snd e) s) as [s'|x] eqn:E.
  - apply IH. exact (insert_keeps_keys_unique _ _ _ _ U E).
  - exact U.
Qed.

Lemma create_all_keeps_keys_unique : forall db,
  all_keys_unique db -> all_keys_unique (create_all tables db).
Proof.
  intros db U n t L. rewrite lookup_create_all in L.
  destruct (lookup_table n db) as [t0|] eqn:L0.
  - injection L as <-. exact (U n t0 L0).
  - destruct (find (fun d => Text.ieqb (fst d) n) tables) as [d|];
      [|discriminate L].
    simpl in L. injection L as <-. unfold keys_unique. simpl.
    destruct (pk_positions (fst (snd d))); reflexivity.
Qed.

(** X15.  INSERT OR IGNORE never duplicates a primary key: when in every
    table of a store the rows have distinct primary keys, the same holds
    after [setup_database], whether the call returns or raises. *)
Theorem loader_keeps_keys_unique : forall db : Store,
  all_keys_unique db -> all_keys_unique (fst (setup_database db)).
Proof.
  intros db U. destruct (setup_database_store db) as [E|E]; rewrite E.
  - apply create_all_keeps_keys_unique. exact U.
  - apply run_script_keeps_keys_unique. apply create_all_keeps_keys_unique.
    exact U.
Qed.

Lemma loader_keeps_keys_unique_witness : all_keys_unique seeded.
Proof.
  apply (loader_keeps_keys_unique empty_store).
  intros n t H. discriminate H.
Defined.

(** *** Describing the tables the loader made *)

Lemma declared_names_are_plain : forall name cols,
  declared name = Some cols ->
  is_identifier name = true /\
  is_reserved name = false /\
  forallb DatabasePlugin.column_text_ok cols = true.
Proof.
  intros name cols H. unfold declared, tables in H.
  cbn [declared_in fst snd] in H.
  repeat match type of H with
  | (if String.eqb ?a name then _ else _) = _ =>
      destruct (String.eqb_spec a name) as [<-|_];
      [ injection H as <-; repeat split; vm_compute; reflexivity | ]
  end.
  discriminate.
Qed.

(** X16.  After the loader has run on a store of this program, describing
    any of the eleven tables returns the JSON of one descriptor per column
    of its CREATE TABLE text, in order, with the declared type, with
    nullable true exactly where no NOT NULL is declared and with no
    default. *)
Theorem describe_after_load :
  forall (B : backend) (db : Store) (name : string) (cols : list column),
    conforms db ->
    declared name = Some cols ->
    DatabasePlugin.get_table_schema B (fst (setup_database db)) name
    = (fst (setup_database db),
       Py.Returned
         (DatabasePlugin.dumps_schema
            (map (fun c => DatabasePlugin.Descriptor
                             (col_name c) (col_type c) (negb (col_notnull c)) None)
                 cols))).
Proof.
  intros B db name cols Hc D.
  destruct (loader_returns_on_conforming_store db Hc) as [once [Hrun [Hok _]]].
  rewrite Hrun. cbn [fst].
  destruct (Hok _ _ D) as [t [L C]].
  destruct (declared_names_are_plain _ _ D) as [Hid [Hres Htext]].
  rewrite (schema_of_existing_table B once name t Hid Hres L);
    [|rewrite C; exact Htext].
  rewrite C. f_equal. f_equal. f_equal.
  unfold DatabasePlugin.schema_info. apply map_ext_in.
  intros c Hin.
  assert (Hd : col_default c = None).
  { clear -D Hin. unfold declared, tables in D.
    cbn [declared_in fst snd] in D.
    repeat match type of D with
    | (if String.eqb ?a name then _ else _) = _ =>
        destruct (String.eqb_spec a name) as [<-|_];
        [ injection D as <-; simpl in Hin;
          repeat (destruct Hin as [<-|Hin]; [reflexivity|]); contradiction | ]
    end.
    discriminate. }
  rewrite Hd. reflexivity.
Qed.

Lemma describe_after_load_witness :
  DatabasePlugin.get_table_schema refusing_backend
    (fst (setup_database empty_store)) "Region"
  = (fst (setup_database empty_store),
     Py.Returned
       (DatabasePlugin.dumps_schema
          [ DatabasePlugin.Descriptor "RegionID" "INTEGER" true None;
            DatabasePlugin.Descriptor "RegionDescription" "TEXT" false None ])).
Proof.
  apply (describe_after_load refusing_backend empty_store "Region"
           [ primary_key "RegionID" "INTEGER" 1;
             not_null "RegionDescription" "TEXT" ]).
  - intros n cols t _ H. discriminate H.
  - reflexivity.
Defined.

(** *** The table listing after the loader *)

Lemma names_after_update : forall name f s,
  map fst (update_table name f s) = map fst s.
Proof.
  intros name f s. induction s as [|[k t] s IH]; simpl; [reflexivity|].
  destruct (Text.ieqb k name); simpl; [reflexivity | rewrite IH; reflexivity].
Qed.

Lemma names_after_insert : forall name r s s',
  insert_or_ignore name r s = Py.Returned s' -> map fst s' = map fst s.
Proof.
  intros name r s s' H. unfold insert_or_ignore in H.
  destruct (lookup_table name s) as [t|]; [|discriminate H].
  destruct (Nat.eqb (List.length r) (List.length (tbl_columns t)));
    [|discriminate H].
  destruct (notnull_violation (tbl_columns t) r
            || key_conflict (tbl_columns t) (tbl_rows t) r);
    injection H as <-; [reflexivity | apply names_after_update].
Qed.

Lemma names_after_script : forall es s,
  map fst (fst (run_script es s)) = map fst s.
Proof.
  induction es as [|e es IH]; intro s; [reflexivity|].
  simpl. destruct (insert_or_ignore (fst e) (snd e) s) as [s'|x] eqn:E;
    [|reflexivity].
  rewrite IH. exact (names_after_insert _ _ _ _ E).
Qed.

Lemma names_after_create_all : forall ds s,
  exists added,
    map fst (create_all ds s) = (map fst s ++ added)%list /\
    incl added (map fst ds).
Proof.
  induction ds as [|d ds IH]; intro s.
  - exists []. split; [symmetry; apply app_nil_r | intros x []].
  - assert (Hstep : create_all (d :: ds) s
                    = create_all ds
                        (create_table_if_not_exists
                           (fst d) (fst (snd d)) (snd (snd d)) s))
      by reflexivity.
    rewrite Hstep. unfold create_table_if_not_exists.
    destruct (lookup_table (fst d) s).
    + destruct (IH s) as [added [E I]]. exists added.
      split; [exact E | intros x Hx; right; exact (I x Hx)].
    + destruct (IH (s ++ [(fst d, Table (fst (snd d)) (snd (snd d)) [])])%list)
        as [added [E I]].
      exists (fst d :: added). split.
      * rewrite E, map_app, <- app_assoc. reflexivity.
      * intros x [<-|Hx]; [left; reflexivity | right; exact (I x Hx)].
Qed.

(** X17.  The loader only appends to the table listing: on every store
    whose table names decode, after [setup_database] the call of
    [list_tables] returns the JSON of the names that were listed before,
    in their order, followed by those of the eleven names that the call
    created. *)
Theorem loader_appends_table_names : forall db : Store,
  forallb Utf8.valid (map fst db) = true ->
  exists added : list string,
    incl added table_names /\
    map fst (fst (setup_database db)) = (map fst db ++ added)%list /\
    DatabasePlugin.list_tables (fst (setup_database db))
    = (fst (setup_database db),
       Py.Returned (Json.dumps_strings (map fst db ++ added))).
Proof.
  intros db Hvalid.
  destruct (names_after_create_all tables db) as [added [E I]].
  assert (N : map fst (fst (setup_database db)) = (map fst db ++ added)%list).
  { destruct (setup_database_store db) as [S|S]; rewrite S;
      [|rewrite names_after_script]; exact E. }
  exists added. split; [exact I|]. split; [exact N|].
  unfold DatabasePlugin.list_tables, DatabasePlugin.select_table_names.
  rewrite N, forallb_app, Hvalid. cbn [andb].
  replace (forallb Utf8.valid added) with true; [reflexivity|].
  symmetry. apply forallb_forall. intros x Hx.
  assert (V : forallb Utf8.valid table_names = true) by (vm_compute; reflexivity).
  rewrite forallb_forall in V. apply V. apply I. exact Hx.
Qed.

Lemma loader_appends_table_names_witness :
  exists added : list string,
    incl added table_names /\
    map fst (fst (setup_database store_with_other_suppliers))
    = (map fst store_with_other_suppliers ++ added)%list /\
    DatabasePlugin.list_tables (fst (setup_database store_with_other_suppliers))
    = (fst (setup_database store_with_other_suppliers),
       Py.Returned
         (Json.dumps_strings (map fst store_with_other_suppliers ++ added))).
Proof.
  apply (loader_appends_table_names store_with_other_suppliers).
  vm_compute. reflexivity.
Defined.

(** *** What [insert_sample_data] leaves to its caller *)



